(** * Growth-suggestion engine: shallow embedding and verified properties

    The two service modules of the repository, [growth_api.py] and
    [financial_model_api.py], are embedded as Rocq functions over a small
    model of the Python numeric runtime.  Python floats are IEEE binary64
    values, modelled by the primitive type [float]; Python ints are
    unbounded, modelled by [Z]; exceptions are explicit results. *)

From Stdlib Require Import ZArith String Ascii Bool List Floats Lia.
Import ListNotations.
Local Open Scope Z_scope.
Set Warnings "-inexact-float".

(** ** Exceptions and results *)

Inductive pyexn : Set :=
  | TypeError
  | ZeroDivisionError
  | OverflowError
  | IndexError
  | KeyError.

Inductive result (A : Type) : Type :=
  | Ok (a : A)
  | Raise (e : pyexn).

Arguments Ok {A} a.
Arguments Raise {A} e.

Definition bind {A B : Type} (r : result A) (k : A -> result B) : result B :=
  match r with
  | Ok a => k a
  | Raise e => Raise e
  end.

Notation "x <- r ;; k" := (bind r (fun x => k))
  (at level 61, r at next level, right associativity).

(** ** Values

    The values a historical series or a CAGR argument can hold: [None],
    an [int] or a [float]. *)

Inductive pyval : Set :=
  | PNone
  | PInt (z : Z)
  | PFloat (f : float).

(** Python strings are sequences of code points. *)
Definition str : Set := list N.

Definition lit (s : string) : str :=
  map N_of_ascii (list_ascii_of_string s).

Fixpoint str_eqb (a b : str) : bool :=
  match a, b with
  | [], [] => true
  | x :: a', y :: b' => N.eqb x y && str_eqb a' b'
  | _, _ => false
  end.

(** ** The parts of the runtime left abstract

    [float_pow] is [float.__pow__] (the [**] operator on two floats): its
    value comes from the platform's C library and it raises on overflow
    and on a zero base with a negative exponent.  [unicode_upper] is the
    full upper-case mapping of [str.upper] for a code point above U+007F. *)

Class PyRuntime : Type := {
  float_pow : float -> float -> result float;
  unicode_upper : N -> list N
}.

(** ** Conversions between ints and floats *)

Definition Z2SF (z : Z) : spec_float :=
  match z with
  | Z0 => S754_zero false
  | Zpos p => S754_finite false p 0
  | Zneg p => S754_finite true p 0
  end.

Definition signed_SF (s : bool) (q : Z) : spec_float :=
  match q with
  | Z0 => S754_zero s
  | Zpos p => S754_finite s p 0
  | Zneg _ => S754_nan
  end.

(** The double nearest to an integer (ties to even), infinite past the
    largest finite double. *)
Definition Z2F (z : Z) : float :=
  SF2Prim (binary_normalize prec emax z 0 false).

(** The double nearest to a quotient of two integers. *)
Definition Zdiv2F (a b : spec_float) : float :=
  SF2Prim (SFdiv prec emax a b).

(** Quotients of this magnitude and above round to an infinity. *)
Definition dbl_overflow : Z := 2 ^ 1024 - 2 ^ 970.

(** [float(z)] for an int: [OverflowError] when the int is too large. *)
Definition float_of_int (z : Z) : result float :=
  let f := Z2F z in
  if is_finite f then Ok f else Raise OverflowError.

(** Coercion of an operand of mixed arithmetic to a float. *)
Definition to_float (v : pyval) : result float :=
  match v with
  | PNone => Raise TypeError
  | PInt z => float_of_int z
  | PFloat f => Ok f
  end.

(** ** Arithmetic *)

(** [a / b] on two floats. *)
Definition float_truediv (a b : float) : result float :=
  if (b =? 0)%float then Raise ZeroDivisionError else Ok (a / b)%float.

(** [a / b] on two ints: the correctly rounded quotient. *)
Definition int_truediv (a b : Z) : result float :=
  if b =? 0 then Raise ZeroDivisionError
  else if dbl_overflow * Z.abs b <=? Z.abs a then Raise OverflowError
  else Ok (Zdiv2F (Z2SF a) (Z2SF b)).

(** [a / b] on values: always a float. *)
Definition py_truediv (a b : pyval) : result float :=
  match a, b with
  | PNone, _ | _, PNone => Raise TypeError
  | PInt x, PInt y => int_truediv x y
  | _, _ => x <- to_float a ;; y <- to_float b ;; float_truediv x y
  end.

(** [a * b] on values. *)
Definition py_mul (a b : pyval) : result pyval :=
  match a, b with
  | PNone, _ | _, PNone => Raise TypeError
  | PInt x, PInt y => Ok (PInt (x * y))
  | _, _ => x <- to_float a ;; y <- to_float b ;; Ok (PFloat (x * y))
  end.

(** [sum] of a list of floats, from the int [0]. For the at most two
    terms summed here the compensated summation of recent interpreters
    returns the same double as the plain left-to-right sum. *)
Definition py_sum (l : list float) : float :=
  fold_left PrimFloat.add l 0%float.

(** ** Comparisons *)

(** Exact comparison of a float with an int; [None] on NaN. *)
Definition float_compare_int (f : float) (z : Z) : option comparison :=
  match Prim2SF f with
  | S754_nan => None
  | S754_infinity s => Some (if s then Lt else Gt)
  | S754_zero _ => Some (0 ?= z)
  | S754_finite s m e =>
      let v := if s then Zneg m else Zpos m in
      Some (if 0 <=? e then (v * 2 ^ e ?= z) else (v ?= z * 2 ^ (- e)))
  end.

Definition py_compare (a b : pyval) : result (option comparison) :=
  match a, b with
  | PNone, _ | _, PNone => Raise TypeError
  | PInt x, PInt y => Ok (Some (x ?= y))
  | PFloat x, PFloat y =>
      Ok (match (x ?= y)%float with
          | FEq => Some Eq
          | FLt => Some Lt
          | FGt => Some Gt
          | FNotComparable => None
          end)
  | PFloat x, PInt y => Ok (float_compare_int x y)
  | PInt x, PFloat y => Ok (option_map CompOpp (float_compare_int y x))
  end.

Definition py_gt (a b : pyval) : result bool :=
  c <- py_compare a b ;;
  Ok (match c with Some Gt => true | _ => false end).

Definition py_lt (a b : pyval) : result bool :=
  c <- py_compare a b ;;
  Ok (match c with Some Lt => true | _ => false end).

Definition py_le (a b : pyval) : result bool :=
  c <- py_compare a b ;;
  Ok (match c with Some Lt | Some Eq => true | _ => false end).

(** [max(a, b)] keeps [a] unless [b > a]; [min(a, b)] keeps [a] unless
    [b < a]. *)
Definition py_max (a b : pyval) : result pyval :=
  c <- py_gt b a ;; Ok (if c then b else a).

Definition py_min (a b : pyval) : result pyval :=
  c <- py_lt b a ;; Ok (if c then b else a).

(** ** Rounding *)

(** The integer nearest to [a / b], ties to even ([0 < b]). *)
Definition round_half_even_div (a b : Z) : Z :=
  let q := a / b in
  match 2 * (a mod b) ?= b with
  | Lt => q
  | Gt => q + 1
  | Eq => if Z.even q then q else q + 1
  end.

(** [round(x, ndigits)] on a float: the decimal value of [x] is rounded
    to [ndigits] places, ties to even, and the double nearest to that
    decimal is returned. *)
Definition float_round (x : float) (ndigits : Z) : result float :=
  match Prim2SF x with
  | S754_finite s m e =>
      if 323 <? ndigits then Ok x
      else if ndigits <? -309 then Ok (0 * x)%float
      else
        let up := 10 ^ Z.max 0 ndigits in
        let down := 10 ^ Z.max 0 (- ndigits) in
        let q :=
          if 0 <=? e
          then round_half_even_div (Zpos m * 2 ^ e * up) down
          else round_half_even_div (Zpos m * up) (2 ^ (- e) * down) in
        let num := q * down in
        if dbl_overflow * up <=? num then Raise OverflowError
        else Ok (Zdiv2F (signed_SF s num) (Z2SF up))
  | _ => Ok x
  end.

(** [round(z, ndigits)] on an int. *)
Definition int_round (z : Z) (ndigits : Z) : Z :=
  if 0 <=? ndigits then z
  else let p := 10 ^ (- ndigits) in round_half_even_div z p * p.

Definition py_round (v : pyval) (ndigits : Z) : result pyval :=
  match v with
  | PNone => Raise TypeError
  | PInt z => Ok (PInt (int_round z ndigits))
  | PFloat f => r <- float_round f ndigits ;; Ok (PFloat r)
  end.

(** ** Sequences *)

(** [l[i]], with Python's negative indices. *)
Definition getitem {A : Type} (l : list A) (i : Z) : result A :=
  let n := Z.of_nat (length l) in
  let j := if i <? 0 then i + n else i in
  if (j <? 0) || (n <=? j) then Raise IndexError
  else match nth_error l (Z.to_nat j) with
       | Some x => Ok x
       | None => Raise IndexError
       end.

(** [range(a, b)]. *)
Definition range (a b : Z) : list Z :=
  map (fun k => a + Z.of_nat k) (seq 0 (Z.to_nat (b - a))).

(** A [for] loop threading an accumulator through a fallible body. *)
Fixpoint for_each {A S : Type} (body : S -> A -> result S) (l : list A) (s : S)
  : result S :=
  match l with
  | [] => Ok s
  | a :: l' => s' <- body s a ;; for_each body l' s'
  end.

(** ** Strings and dictionaries *)

Section Upper.
Context {rt : PyRuntime}.

Definition upper_char (c : N) : list N :=
  if (97 <=? c)%N && (c <=? 122)%N then [(c - 32)%N]
  else if (c <? 128)%N then [c]
  else unicode_upper c.

(** [s.upper()]. *)
Definition upper (s : str) : str := flat_map upper_char s.
End Upper.

Fixpoint lookup {V : Type} (d : list (str * V)) (k : str) : option V :=
  match d with
  | [] => None
  | (k', v) :: d' => if str_eqb k' k then Some v else lookup d' k
  end.

(** [d[k]]. *)
Definition dict_getitem {V : Type} (d : list (str * V)) (k : str) : result V :=
  match lookup d k with
  | Some v => Ok v
  | None => Raise KeyError
  end.

(** [d.get(k, default)]. *)
Definition dict_get {V : Type} (d : list (str * V)) (k : str) (default : V) : V :=
  match lookup d k with
  | Some v => v
  | None => default
  end.

(** The [{"min": _, "max": _}] entries of the sector table. *)
Record limits : Set := { lim_min : Z; lim_max : Z }.

(** * growth_api.py *)

Module GrowthApi.
Section WithRuntime.
Context {rt : PyRuntime}.

Definition SECTOR_LIMITS : list (str * limits) :=
  [ (lit "ENERGY", {| lim_min := 4; lim_max := 10 |});
    (lit "IT", {| lim_min := 6; lim_max := 15 |});
    (lit "BANKING", {| lim_min := 7; lim_max := 14 |});
    (lit "FMCG", {| lim_min := 5; lim_max := 12 |});
    (lit "DEFAULT", {| lim_min := 5; lim_max := 12 |}) ].

Definition safe_float (x : pyval) : result float :=
  match x with
  | PNone => Ok 0%float
  | PFloat f => if is_nan f || is_infinity f then Ok 0%float else Ok f
  | PInt z => float_of_int z
  end.

Definition calculate_cagr (start end_ : pyval) (years : Z) : result float :=
  start <- safe_float start ;;
  end_ <- safe_float end_ ;;
  if (start <=? 0)%float || (end_ <=? 0)%float || (years <=? 0) then Ok 0%float
  else
    ratio <- float_truediv end_ start ;;
    expo <- int_truediv 1 years ;;
    p <- float_pow ratio expo ;;
    Ok ((p - 1) * 100)%float.

(** The comprehension [[safe_float(v) for v in values if v > 0]]. *)
Fixpoint clean (values : list pyval) : result (list float) :=
  match values with
  | [] => Ok []
  | v :: rest =>
      keep <- py_gt v (PInt 0) ;;
      if keep
      then x <- safe_float v ;; xs <- clean rest ;; Ok (x :: xs)
      else clean rest
  end.

(** One iteration of the recent-trend loop. *)
Definition recent_step (values : list float) (recent : list float) (i : Z)
  : result (list float) :=
  vi <- getitem values i ;;
  if (0 <? vi)%float then
    next <- getitem values (i + 1) ;;
    vi' <- getitem values i ;;
    ratio <- float_truediv next vi' ;;
    Ok (recent ++ [((ratio - 1) * 100)%float])
  else Ok recent.

(** [sum(recent) / len(recent) if recent else 0.0]. *)
Definition average (recent : list float) : result float :=
  match recent with
  | [] => Ok 0%float
  | _ :: _ =>
      n <- float_of_int (Z.of_nat (length recent)) ;;
      float_truediv (py_sum recent) n
  end.

(** The recent-trend block of [suggest_growth] on the cleaned series. *)
Definition recent_trend (values : list float) : result float :=
  recent <- for_each (recent_step values) (range (-3) (-1)) [] ;;
  average recent.

(** [SECTOR_LIMITS.get(sector.upper(), SECTOR_LIMITS["DEFAULT"])]. *)
Definition limits_for (sector : str) : result limits :=
  default <- dict_getitem SECTOR_LIMITS (lit "DEFAULT") ;;
  Ok (dict_get SECTOR_LIMITS (upper sector) default).

(** [min(max(raw, limits["min"]), limits["max"])]. *)
Definition clamp (raw : float) (l : limits) : result pyval :=
  low <- py_max (PFloat raw) (PInt (lim_min l)) ;;
  py_min low (PInt (lim_max l)).

Definition suggest_growth (values : list pyval) (sector : str)
  : result (pyval * pyval * pyval) :=
  values <- clean values ;;
  if Z.of_nat (length values) <? 4
  then Ok (PFloat 0, PFloat 0, PFloat 0)
  else
    let years := Z.of_nat (length values) - 1 in
    first <- getitem values 0 ;;
    last <- getitem values (-1) ;;
    cagr <- calculate_cagr (PFloat first) (PFloat last) years ;;
    recent_avg <- recent_trend values ;;
    let raw := (0.6 * cagr + 0.4 * recent_avg)%float in
    lim <- limits_for sector ;;
    final <- clamp raw lim ;;
    r1 <- py_round final 2 ;;
    r2 <- py_round (PFloat cagr) 2 ;;
    r3 <- py_round (PFloat recent_avg) 2 ;;
    Ok (r1, r2, r3).
End WithRuntime.
End GrowthApi.

(** * financial_model_api.py *)

Module FinancialModel.
Section WithRuntime.
Context {rt : PyRuntime}.

Definition SECTOR_LIMITS : list (str * limits) :=
  [ (lit "ENERGY", {| lim_min := 4; lim_max := 10 |});
    (lit "IT", {| lim_min := 6; lim_max := 15 |});
    (lit "BANKING", {| lim_min := 7; lim_max := 14 |});
    (lit "FMCG", {| lim_min := 5; lim_max := 12 |});
    (lit "DEFAULT", {| lim_min := 5; lim_max := 12 |}) ].

Definition calculate_cagr (start_value end_value : pyval) (years : Z)
  : result pyval :=
  c1 <- py_le start_value (PInt 0) ;;
  if c1 then Ok (PInt 0)
  else
    c2 <- py_le end_value (PInt 0) ;;
    if c2 then Ok (PInt 0)
    else
      ratio <- py_truediv end_value start_value ;;
      expo <- int_truediv 1 years ;;
      p <- float_pow ratio expo ;;
      Ok (PFloat (p - 1)%float).

Definition recent_step (historical_values : list pyval)
           (recent_growths : list float) (i : Z) : result (list float) :=
  next <- getitem historical_values (i + 1) ;;
  vi <- getitem historical_values i ;;
  ratio <- py_truediv next vi ;;
  Ok (recent_growths ++ [((ratio - 1) * 100)%float]).

Definition suggest_growth (historical_values : list pyval) (sector : str)
  : result (pyval * pyval * pyval) :=
  let years := Z.of_nat (length historical_values) - 1 in
  first <- getitem historical_values 0 ;;
  last <- getitem historical_values (-1) ;;
  c <- calculate_cagr first last years ;;
  cagr <- py_mul c (PInt 100) ;;
  recent_growths <- for_each (recent_step historical_values) (range (-3) (-1)) [] ;;
  n <- float_of_int (Z.of_nat (length recent_growths)) ;;
  recent_avg <- float_truediv (py_sum recent_growths) n ;;
  weighted <- py_mul (PFloat 0.6) cagr ;;
  w <- to_float weighted ;;
  let raw_suggestion := (w + 0.4 * recent_avg)%float in
  default <- dict_getitem SECTOR_LIMITS (lit "DEFAULT") ;;
  let lim := dict_get SECTOR_LIMITS (upper sector) default in
  low <- py_max (PFloat raw_suggestion) (PInt (lim_min lim)) ;;
  final_growth <- py_min low (PInt (lim_max lim)) ;;
  r1 <- py_round final_growth 1 ;;
  r2 <- py_round cagr 1 ;;
  r3 <- py_round (PFloat recent_avg) 1 ;;
  Ok (r1, r2, r3).
End WithRuntime.
End FinancialModel.

(** * Vocabulary of the specification *)

(** One period-over-period growth rate, in percent. *)
Definition growth_rate (prev next : float) : float :=
  ((next / prev - 1) * 100)%float.

(** The growth rates of the pairs whose divisor is strictly positive. *)
Definition valid_rates (pairs : list (float * float)) : list float :=
  map (fun p => growth_rate (fst p) (snd p))
      (filter (fun p => (0 <? fst p)%float) pairs).

(** Arithmetic mean, [0.0] for no rate. *)
Definition mean_or_zero (rates : list float) : float :=
  match rates with
  | [] => 0%float
  | _ :: _ => (py_sum rates / Z2F (Z.of_nat (length rates)))%float
  end.

(** The last [k] consecutive pairs of a series. *)
Definition last_pairs (k : nat) (v : list float) : list (float * float) :=
  let w := skipn (length v - S k) v in
  combine w (tl w).

(** The recent trend as the specification words it: over the last
    [k] period-over-period transitions. *)
Definition recent_trend_over (k : nat) (v : list float) : float :=
  mean_or_zero (valid_rates (last_pairs k v)).

(** The number of pairs of the window with a strictly positive divisor. *)
Definition valid_pairs (k : nat) (v : list float) : nat :=
  length (filter (fun p => (0 <? fst p)%float) (last_pairs k v)).

(** The entries the positivity filter of the engine keeps and what
    sanitising turns them into. *)
Definition passes (v : pyval) : bool :=
  match py_gt v (PInt 0) with
  | Ok b => b
  | Raise _ => false
  end.

Definition sanitized (v : pyval) : float :=
  match GrowthApi.safe_float v with
  | Ok f => f
  | Raise _ => 0%float
  end.

(** A value the engine can clean: a float, or an int within the range
    of doubles. *)
Definition numeric (v : pyval) : Prop :=
  match v with
  | PNone => False
  | PInt z => is_finite (Z2F z) = true
  | PFloat _ => True
  end.

(** A value [safe_float] accepts: [None], a float, or an int within the
    range of doubles. *)
Definition convertible (v : pyval) : Prop :=
  match v with
  | PInt z => is_finite (Z2F z) = true
  | _ => True
  end.

(** The double nearest to [1 / n]. *)
Definition reciprocal (n : Z) : float := Zdiv2F (Z2SF 1) (Z2SF n).

(** The number of entries of a series that are strictly positive once
    sanitised. *)
Definition valid_count (values : list pyval) : nat :=
  length (filter (fun v => (0 <? sanitized v)%float) values).

(** The clamp of a raw blend into [[lo, hi]], by cases. *)
Definition clamped (raw : float) (l : limits) : pyval :=
  match float_compare_int raw (lim_min l) with
  | Some Lt => PInt (lim_min l)
  | _ => match float_compare_int raw (lim_max l) with
         | Some Gt => PInt (lim_max l)
         | _ => PFloat raw
         end
  end.

(** The [**] operator does not raise where [calculate_cagr] applies it:
    on the quotient of two floats that passed the guard, raised to the
    reciprocal of a positive number of periods. *)
Definition root_defined (rt : PyRuntime) : Prop :=
  forall (s e : float) (n : Z) (x : float),
    (s <=? 0)%float = false -> (e <=? 0)%float = false ->
    0 < n -> int_truediv 1 n = Ok x ->
    exists p, float_pow (e / s)%float x = Ok p.

(** ** A runtime to evaluate with

    An instance of the abstract runtime for closed evaluations: [**]
    at the exponents [0], [1], [1/2] and [1/4], through correctly rounded
    square roots, and NaN at any other; code points above U+007F left
    as they are. *)
Definition pow_dyadic (b e : float) : result float :=
  if (e =? 0)%float then Ok 1%float
  else if (e =? 1)%float then Ok b
  else if (e =? 0.5)%float then Ok (sqrt b)
  else if (e =? 0.25)%float then Ok (sqrt (sqrt b))
  else Ok nan.

Definition sample_runtime : PyRuntime :=
  {| float_pow := pow_dyadic; unicode_upper := fun c => [c] |}.

Definition floats (l : list float) : list pyval := map PFloat l.

(** * The service layers *)

(** What an endpoint can fail with: a [ValueError] of the retrieval
    step, a failure of the data provider itself, or an exception of the
    numeric runtime. *)
Inductive service_exn : Set :=
  | ValueError (msg : string)
  | ProviderError (detail : string)
  | EngineError (e : pyexn).

Inductive attempt (A : Type) : Type :=
  | Done (a : A)
  | Failed (e : service_exn).

Arguments Done {A} a.
Arguments Failed {A} e.

Definition and_then {A B : Type} (r : attempt A) (k : A -> attempt B) : attempt B :=
  match r with
  | Done a => k a
  | Failed e => Failed e
  end.

Notation "x <~ r ;; k" := (and_then r (fun x => k))
  (at level 61, r at next level, right associativity).

Definition lift {A : Type} (r : result A) : attempt A :=
  match r with
  | Ok a => Done a
  | Raise e => Failed (EngineError e)
  end.

(** A table of financial statements: the labels of [fin.index], each
    with the cells of its row, one cell per reporting period. Labels are
    unique and rows have the same length. *)
Definition frame : Set := list (str * list pyval).

(** [fin.empty]: no row or no column. *)
Definition frame_empty (fin : frame) : bool :=
  match fin with
  | [] => true
  | (_, row) :: _ => (length row =? 0)%nat
  end.

(** [label in fin.index]. *)
Definition has_row (fin : frame) (label : str) : bool :=
  existsb (fun r => str_eqb (fst r) label) fin.

(** [yf.Ticker(ticker).financials]. *)
Class Provider : Type := {
  financials : str -> attempt (option frame)
}.

(** [[safe_float(x) for x in cells]]. *)
Fixpoint sanitize_all (cells : list pyval) : result (list float) :=
  match cells with
  | [] => Ok []
  | x :: rest => f <- GrowthApi.safe_float x ;; fs <- sanitize_all rest ;; Ok (f :: fs)
  end.

(** [row * k], cell by cell. *)
Fixpoint scale (row : list pyval) (k : float) : result (list pyval) :=
  match row with
  | [] => Ok []
  | x :: rest => y <- py_mul x (PFloat k) ;; ys <- scale rest k ;; Ok (y :: ys)
  end.

(** The per-metric answers of a response. *)
Record per_metric (A : Type) : Type := { Revenue : A; EBITDA : A; PAT : A }.

Arguments Revenue {A} p.
Arguments EBITDA {A} p.
Arguments PAT {A} p.

Record basis : Set := { CAGR_pct : pyval; Recent_pct : pyval }.

Record response : Type := {
  company : str;
  sector_tag : str;
  suggested_growth : per_metric pyval;
  analysis : per_metric basis;
  confidence : string;
  note : string
}.

(** How the handler of growth_api ends: it returns its dict, or raises
    an [HTTPException] of status 400 whose detail is the text of the
    exception caught.  What the framework makes of a returned dict, its
    rendering as JSON included, is not part of the model. *)
Inductive reply : Type :=
  | Returned (body : response)
  | Http400 (caught : service_exn).

Module GrowthService.
Section WithServices.
Context {rt : PyRuntime} {provider : Provider}.

(** The choice of the EBITDA row, with its fallback on 15% of revenue. *)
Definition ebitda_row (fin : frame) (revenue : list pyval) : result (list pyval) :=
  if has_row fin (lit "Ebitda") then dict_getitem fin (lit "Ebitda")
  else if has_row fin (lit "EBIT") then dict_getitem fin (lit "EBIT")
  else if has_row fin (lit "Operating Income")
       then dict_getitem fin (lit "Operating Income")
       else scale revenue 0.15.

Definition fetch_financials (ticker : str)
  : attempt (list float * list float * list float) :=
  fin <~ financials ticker ;;
  match fin with
  | None => Failed (ValueError "Financial data not available")
  | Some fin =>
      if frame_empty fin then Failed (ValueError "Financial data not available")
      else if negb (has_row fin (lit "Total Revenue"))
      then Failed (ValueError "Revenue missing")
      else
        revenue <~ lift (dict_getitem fin (lit "Total Revenue")) ;;
        pat <~ (if has_row fin (lit "Net Income")
                then lift (dict_getitem fin (lit "Net Income"))
                else Failed (ValueError "PAT missing")) ;;
        ebitda <~ lift (ebitda_row fin revenue) ;;
        revenue <~ lift (sanitize_all (rev revenue)) ;;
        ebitda <~ lift (sanitize_all (rev ebitda)) ;;
        pat <~ lift (sanitize_all (rev pat)) ;;
        Done (revenue, ebitda, pat)
  end.

Definition growth_api (ticker sector : str) : reply :=
  let attempted :=
    series <~ fetch_financials ticker ;;
    let '(revenue, ebitda, pat) := series in
    rev_r <~ lift (GrowthApi.suggest_growth (map PFloat revenue) sector) ;;
    ebitda_r <~ lift (GrowthApi.suggest_growth (map PFloat ebitda) sector) ;;
    pat_r <~ lift (GrowthApi.suggest_growth (map PFloat pat) sector) ;;
    let '(rev_g, rev_cagr, rev_recent) := rev_r in
    let '(ebitda_g, ebitda_cagr, ebitda_recent) := ebitda_r in
    let '(pat_g, pat_cagr, pat_recent) := pat_r in
    Done {| company := ticker;
            sector_tag := sector;
            suggested_growth :=
              {| Revenue := rev_g; EBITDA := ebitda_g; PAT := pat_g |};
            analysis :=
              {| Revenue := {| CAGR_pct := rev_cagr; Recent_pct := rev_recent |};
                 EBITDA := {| CAGR_pct := ebitda_cagr; Recent_pct := ebitda_recent |};
                 PAT := {| CAGR_pct := pat_cagr; Recent_pct := pat_recent |} |};
            confidence := "MEDIUM";
            note := "Auto-calculated from cleaned historical financials" |} in
  match attempted with
  | Done body => Returned body
  | Failed e => Http400 e
  end.
End WithServices.
End GrowthService.

Module FinancialModelService.
Section WithRuntime.
Context {rt : PyRuntime}.

Definition growth_engine (company_name sector : str)
           (revenue_history ebitda_history pat_history : list pyval)
  : result response :=
  rev_r <- FinancialModel.suggest_growth revenue_history sector ;;
  ebitda_r <- FinancialModel.suggest_growth ebitda_history sector ;;
  pat_r <- FinancialModel.suggest_growth pat_history sector ;;
  let '(rev_g, rev_cagr, rev_recent) := rev_r in
  let '(ebitda_g, ebitda_cagr, ebitda_recent) := ebitda_r in
  let '(pat_g, pat_cagr, pat_recent) := pat_r in
  Ok {| company := company_name;
        sector_tag := sector;
        suggested_growth :=
          {| Revenue := rev_g; EBITDA := ebitda_g; PAT := pat_g |};
        analysis :=
          {| Revenue := {| CAGR_pct := rev_cagr; Recent_pct := rev_recent |};
             EBITDA := {| CAGR_pct := ebitda_cagr; Recent_pct := ebitda_recent |};
             PAT := {| CAGR_pct := pat_cagr; Recent_pct := pat_recent |} |};
        confidence := "MEDIUM";
        note := "Suggested growth based on historical CAGR, recent trend & sector cap" |}.
End WithRuntime.
End FinancialModelService.

(** ** Vocabulary for the service layers *)

(** The exception the cleaning step of the engine ends with, if any:
    [TypeError] at the first [None], [OverflowError] at the first
    positive int past the range of doubles. *)
Fixpoint clean_failure (values : list pyval) : option pyexn :=
  match values with
  | [] => None
  | PNone :: _ => Some TypeError
  | PInt z :: rest =>
      if (0 <? z) && negb (is_finite (Z2F z)) then Some OverflowError
      else clean_failure rest
  | PFloat _ :: rest => clean_failure rest
  end.

(** What cleaning makes of a float that passed the filter. *)
Definition inf_to_zero (f : float) : float :=
  if is_infinity f then 0%float else f.

(** A provider that answers every ticker with the same table. *)
Definition constant_provider (fin : option frame) : Provider :=
  {| financials := fun _ => Done fin |}.

Definition sample_frame : frame :=
  [ (lit "Total Revenue", floats [146.41; 133.1; 121; nan; 110; 100]%float);
    (lit "EBIT", floats [30; 27; 25; 22; 20; -1]%float);
    (lit "Operating Income", floats [29; 26; 24; 21; 19; 17]%float);
    (lit "Net Income", floats [14; 13; infinity; 12; 11; 10]%float) ].

(** * Facts about the runtime *)

(** ** Floats *)

Lemma leb_false_nonzero (f : float) :
  (f <=? 0)%float = false -> (f =? 0)%float = false.
Proof.
  rewrite leb_spec, eqb_spec. unfold SFleb, SFeqb.
  change (Prim2SF 0) with (S754_zero false).
  destruct (Prim2SF f) as [s | s | | s m e]; simpl; trivial;
    destruct s; trivial.
Qed.

Lemma ltb_pos_nonzero (f : float) :
  (0 <? f)%float = true -> (f =? 0)%float = false.
Proof.
  rewrite ltb_spec, eqb_spec. unfold SFltb, SFeqb.
  change (Prim2SF 0) with (S754_zero false).
  destruct (Prim2SF f) as [s | s | | s m e]; simpl; try discriminate; trivial;
    destruct s; trivial.
Qed.

Lemma ltb_pos_leb_false (f : float) :
  (0 <? f)%float = true -> (f <=? 0)%float = false.
Proof.
  rewrite ltb_spec, leb_spec. unfold SFltb, SFleb.
  change (Prim2SF 0) with (S754_zero false).
  destruct (Prim2SF f) as [s | s | | s m e]; simpl; try discriminate; trivial;
    destruct s; trivial; discriminate.
Qed.

Lemma Ok_inj {A : Type} (a b : A) : Ok a = Ok b -> a = b.
Proof. congruence. Qed.

Lemma float_truediv_nonzero (a b : float) :
  (b =? 0)%float = false -> float_truediv a b = Ok (a / b)%float.
Proof. intros H. unfold float_truediv. now rewrite H. Qed.

Lemma is_finite_not_nan_inf (f : float) :
  is_nan f || is_infinity f = false -> is_finite f = true.
Proof. intros H. unfold is_finite. now rewrite H. Qed.

(** ** Ints *)

Lemma dbl_overflow_above_mantissa : (2 ^ 53 - 1) * 2 ^ 971 < dbl_overflow.
Proof. reflexivity. Qed.

Lemma dbl_overflow_large : 2 ^ 53 < dbl_overflow.
Proof. reflexivity. Qed.

Lemma int_truediv_reciprocal (n : Z) :
  0 < n -> int_truediv 1 n = Ok (reciprocal n).
Proof.
  intros Hn. unfold int_truediv.
  destruct (Z.eqb_spec n 0) as [E | _]; [lia |].
  pose proof dbl_overflow_large as L.
  assert (0 < 2 ^ 53) by (apply Z.pow_pos_nonneg; lia).
  destruct (Z.leb_spec (dbl_overflow * Z.abs n) (Z.abs 1)) as [C | _]; [| reflexivity].
  exfalso. rewrite (Z.abs_eq n) in C by lia. change (Z.abs 1) with 1 in C. nia.
Qed.


(** ** Rounding never overflows for a non-negative number of places *)

Lemma digits2_pos_bound (m : positive) : Zpos m < 2 ^ Zpos (digits2_pos m).
Proof.
  induction m as [p IH | p IH |]; simpl digits2_pos.
  - rewrite Pos2Z.inj_succ, Z.pow_succ_r by lia. lia.
  - rewrite Pos2Z.inj_succ, Z.pow_succ_r by lia. lia.
  - reflexivity.
Qed.

Lemma valid_finite_bounds (s : bool) (m : positive) (e : Z) :
  valid_binary (S754_finite s m e) = true -> Zpos m < 2 ^ 53 /\ e <= 971.
Proof.
  unfold SpecFloat.valid_binary, bounded, canonical_mantissa, fexp, SpecFloat.emin.
  change prec with 53. change emax with 1024.
  intros H. apply andb_true_iff in H as [Hc He].
  apply Z.eqb_eq in Hc. apply Z.leb_le in He.
  split; [| lia].
  pose proof (digits2_pos_bound m) as Hd.
  assert (Zpos (digits2_pos m) <= 53) by lia.
  apply Z.lt_le_trans with (1 := Hd).
  apply Z.pow_le_mono_r; lia.
Qed.

Lemma round_half_even_div_bound (a b : Z) :
  0 <= a -> 0 < b -> 0 <= round_half_even_div a b <= a / b + 1.
Proof.
  intros Ha Hb. unfold round_half_even_div.
  assert (0 <= a / b) by (apply Z.div_pos; lia).
  destruct (2 * (a mod b) ?= b); [destruct (Z.even (a / b)) | |]; lia.
Qed.

Lemma float_round_places (x : float) (ndigits : Z) :
  0 <= ndigits -> exists r, float_round x ndigits = Ok r.
Proof.
  intros Hn. unfold float_round.
  pose proof (Prim2SF_valid x) as Hv.
  destruct (Prim2SF x) as [s | s | | s m e]; eauto.
  destruct (323 <? ndigits); eauto.
  destruct (ndigits <? -309); eauto.
  apply valid_finite_bounds in Hv as [Hm He].
  rewrite (Z.max_r 0 ndigits), (Z.max_l 0 (- ndigits)) by lia.
  change (10 ^ 0) with 1.
  set (up := 10 ^ ndigits).
  assert (Hup : 0 < up) by (apply Z.pow_pos_nonneg; lia).
  match goal with |- context [if ?c then Raise _ else _] => destruct c eqn:Hc end;
    [exfalso | eauto].
  apply Z.leb_le in Hc.
  pose proof dbl_overflow_above_mantissa as Hbig.
  pose proof dbl_overflow_large as Hlarge.
  assert (H53 : 0 < 2 ^ 53) by (apply Z.pow_pos_nonneg; lia).
  destruct (Z.leb_spec 0 e) as [Hpos | Hneg].
  - assert (Hpow : 0 < 2 ^ e <= 2 ^ 971)
      by (split; [apply Z.pow_pos_nonneg | apply Z.pow_le_mono_r]; lia).
    assert (Hq : round_half_even_div (Zpos m * 2 ^ e * up) 1 = Zpos m * 2 ^ e * up).
    { unfold round_half_even_div. rewrite Z.mod_1_r, Z.div_1_r. reflexivity. }
    rewrite Hq in Hc.
    assert (Hle : Zpos m * 2 ^ e <= (2 ^ 53 - 1) * 2 ^ 971)
      by (apply Z.mul_le_mono_nonneg; lia).
    revert Hc Hle Hbig Hup.
    generalize (Zpos m * 2 ^ e) ((2 ^ 53 - 1) * 2 ^ 971) dbl_overflow up.
    clear. intros a b c d Hc Hle Hbig Hup.
    assert (a * d < c * d) by (apply Z.mul_lt_mono_pos_r; lia). lia.
  - assert (Hpow : 0 < 2 ^ (- e)) by (apply Z.pow_pos_nonneg; lia).
    rewrite !Z.mul_1_r in Hc.
    pose proof (round_half_even_div_bound (Zpos m * up) (2 ^ (- e))
                  ltac:(lia) Hpow) as [_ Hq].
    assert (Hdiv : Zpos m * up / 2 ^ (- e) <= Zpos m * up)
      by (apply Z.div_le_upper_bound; nia).
    revert Hc Hq Hdiv Hm Hlarge Hup.
    generalize (round_half_even_div (Zpos m * up) (2 ^ (- e)))
               (Zpos m * up / 2 ^ (- e)) (2 ^ 53) dbl_overflow.
    generalize (Zpos m) up.
    clear. intros a d q t b c Hc Hq Hdiv Hm Hlarge Hup.
    assert (H : (a + 1) * d < c * d) by (apply Z.mul_lt_mono_pos_r; lia).
    rewrite Z.mul_add_distr_r in H. lia.
Qed.

Lemma py_round_places (v : pyval) (ndigits : Z) :
  0 <= ndigits -> v <> PNone -> exists r, py_round v ndigits = Ok r.
Proof.
  intros Hn Hv. destruct v as [| z | f]; [congruence | simpl; eauto |].
  simpl. destruct (float_round_places f ndigits Hn) as [r ->]. simpl. eauto.
Qed.

(** ** Indexing *)

Lemma getitem_from_end {A : Type} (pre suf : list A) (k : nat) (x : A) :
  nth_error suf k = Some x ->
  getitem (pre ++ suf) (Z.of_nat k - Z.of_nat (length suf)) = Ok x.
Proof.
  intros Hk.
  assert (Hlt : (k < length suf)%nat) by (apply nth_error_Some; congruence).
  unfold getitem. rewrite length_app.
  destruct (Z.ltb_spec (Z.of_nat k - Z.of_nat (length suf)) 0) as [_ | C]; [| lia].
  replace (Z.of_nat k - Z.of_nat (length suf) + Z.of_nat (length pre + length suf))
    with (Z.of_nat (length pre + k)) by lia.
  destruct (Z.ltb_spec (Z.of_nat (length pre + k)) 0) as [C | _]; [lia |].
  destruct (Z.leb_spec (Z.of_nat (length pre + length suf)) (Z.of_nat (length pre + k)))
    as [C | _]; [lia |].
  simpl. rewrite Nat2Z.id, nth_error_app2 by lia.
  replace (length pre + k - length pre)%nat with k by lia.
  now rewrite Hk.
Qed.

Lemma getitem_first {A : Type} (x : A) (l : list A) : getitem (x :: l) 0 = Ok x.
Proof.
  unfold getitem. simpl Z.ltb. cbv iota.
  destruct (Z.leb_spec (Z.of_nat (length (x :: l))) 0) as [C | _];
    [simpl length in C; lia | reflexivity].
Qed.

Lemma last_three {A : Type} (v : list A) :
  (3 <= length v)%nat -> exists pre a b c, v = pre ++ [a; b; c].
Proof.
  intros Hlen.
  rewrite <- (firstn_skipn (length v - 3) v).
  assert (Hs : length (skipn (length v - 3) v) = 3%nat) by (rewrite length_skipn; lia).
  destruct (skipn (length v - 3) v) as [| a [| b [| c [| d t]]]]; try discriminate.
  now exists (firstn (length v - 3) v), a, b, c.
Qed.

(** ** Comparisons with an int never raise on a number *)

Lemma py_gt_int (z k : Z) : py_gt (PInt z) (PInt k) = Ok (k <? z).
Proof.
  unfold py_gt. simpl. rewrite (Z.ltb_compare k z), (Z.compare_antisym k z).
  now destruct (k ?= z).
Qed.

Lemma py_gt_float_zero (f : float) :
  py_gt (PFloat f) (PInt 0) = Ok (0 <? f)%float.
Proof.
  unfold py_gt, py_compare, float_compare_int, bind.
  rewrite ltb_spec. unfold SFltb.
  change (Prim2SF 0) with (S754_zero false).
  destruct (Prim2SF f) as [s | s | | s m e]; simpl; trivial;
    destruct s; trivial.
  - destruct (Z.leb_spec 0 e) as [He | He]; trivial.
    assert (0 < 2 ^ e) by (apply Z.pow_pos_nonneg; lia).
    destruct (Z.compare_spec (Zneg m * 2 ^ e) 0); trivial; nia.
  - destruct (Z.leb_spec 0 e) as [He | He]; trivial.
    assert (0 < 2 ^ e) by (apply Z.pow_pos_nonneg; lia).
    destruct (Z.compare_spec (Zpos m * 2 ^ e) 0); trivial; nia.
Qed.

Lemma passes_float (f : float) : passes (PFloat f) = (0 <? f)%float.
Proof. unfold passes. now rewrite py_gt_float_zero. Qed.

Lemma passes_int (z : Z) : passes (PInt z) = (0 <? z).
Proof. unfold passes. now rewrite py_gt_int. Qed.

Lemma py_gt_numeric (v : pyval) : numeric v -> py_gt v (PInt 0) = Ok (passes v).
Proof.
  destruct v as [| z | f]; simpl; [tauto | |]; intros _.
  - now rewrite passes_int, py_gt_int.
  - now rewrite passes_float, py_gt_float_zero.
Qed.

(** * Facts about growth_api.py *)

Import GrowthApi.

Lemma safe_float_convertible (v : pyval) :
  convertible v -> safe_float v = Ok (sanitized v).
Proof.
  unfold sanitized. destruct v as [| z | f]; simpl; trivial.
  - unfold float_of_int. intros ->. reflexivity.
  - destruct (is_nan f || is_infinity f); reflexivity.
Qed.

Lemma numeric_convertible (v : pyval) : numeric v -> convertible v.
Proof. destruct v; simpl; tauto. Qed.

Lemma sanitized_finite (v : pyval) :
  convertible v -> is_finite (sanitized v) = true.
Proof.
  unfold sanitized. destruct v as [| z | f]; simpl; trivial.
  - unfold float_of_int. intros H. rewrite H. exact H.
  - intros _. destruct (is_nan f || is_infinity f) eqn:E; trivial.
    now apply is_finite_not_nan_inf.
Qed.

Lemma clean_numeric (values : list pyval) :
  Forall numeric values ->
  clean values = Ok (map sanitized (filter passes values)).
Proof.
  induction 1 as [| v rest Hv _ IH]; [reflexivity |].
  simpl. rewrite (py_gt_numeric v Hv). simpl.
  destruct (passes v); [| exact IH].
  rewrite (safe_float_convertible v (numeric_convertible v Hv)). simpl.
  now rewrite IH.
Qed.

Lemma filter_passes_length (values : list pyval) :
  (length (filter passes values) <= length values)%nat.
Proof. apply filter_length_le. Qed.

Section Engine.
Context {rt : PyRuntime}.

(** The loop of the recent-trend block visits the last two pairs. *)
Lemma recent_loop_last_three (pre : list float) (a b c : float) :
  for_each (recent_step (pre ++ [a; b; c])) (range (-3) (-1)) []
  = Ok (valid_rates [(a, b); (b, c)]).
Proof.
  change (range (-3) (-1)) with [-3; -2].
  assert (Ha : getitem (pre ++ [a; b; c]) (-3) = Ok a)
    by exact (getitem_from_end pre [a; b; c] 0 a eq_refl).
  assert (Hb : getitem (pre ++ [a; b; c]) (-2) = Ok b)
    by exact (getitem_from_end pre [a; b; c] 1 b eq_refl).
  assert (Hc : getitem (pre ++ [a; b; c]) (-1) = Ok c)
    by exact (getitem_from_end pre [a; b; c] 2 c eq_refl).
  unfold valid_rates, growth_rate. simpl for_each. unfold recent_step.
  change (-3 + 1) with (-2). change (-2 + 1) with (-1).
  rewrite Ha, Hb, Hc. simpl.
  destruct (0 <? a)%float eqn:Ea; destruct (0 <? b)%float eqn:Eb; simpl;
    repeat match goal with
           | H : (0 <? ?x)%float = true |- context [float_truediv _ ?x] =>
               rewrite (float_truediv_nonzero _ x (ltb_pos_nonzero x H)); simpl
           end; try rewrite Eb; simpl;
    repeat match goal with
           | H : (0 <? ?x)%float = true |- context [float_truediv _ ?x] =>
               rewrite (float_truediv_nonzero _ x (ltb_pos_nonzero x H)); simpl
           end; reflexivity.
Qed.

Lemma average_mean (rates : list float) :
  (length rates <= 2)%nat -> average rates = Ok (mean_or_zero rates).
Proof.
  destruct rates as [| x [| y [| z t]]]; simpl length; intros H;
    try reflexivity; try lia.
Qed.

Lemma valid_rates_length (pairs : list (float * float)) :
  (length (valid_rates pairs) <= length pairs)%nat.
Proof. unfold valid_rates. rewrite length_map. apply filter_length_le. Qed.

Lemma last_pairs_two (pre : list float) (a b c : float) :
  last_pairs 2 (pre ++ [a; b; c]) = [(a, b); (b, c)].
Proof.
  unfold last_pairs. rewrite length_app. simpl length.
  replace (length pre + 3 - 3)%nat with (length pre + 0)%nat by lia.
  rewrite skipn_app, skipn_all2 by lia.
  replace (length pre + 0 - length pre)%nat with 0%nat by lia.
  reflexivity.
Qed.

(** [calculate_cagr] by cases, on arguments [safe_float] accepts. *)
Lemma calculate_cagr_cases (start end_ : pyval) (years : Z) :
  convertible start -> convertible end_ ->
  calculate_cagr start end_ years =
    if (sanitized start <=? 0)%float || (sanitized end_ <=? 0)%float || (years <=? 0)
    then Ok 0%float
    else p <- float_pow (sanitized end_ / sanitized start)%float (reciprocal years) ;;
         Ok ((p - 1) * 100)%float.
Proof.
  intros Hs He. unfold calculate_cagr.
  rewrite (safe_float_convertible _ Hs), (safe_float_convertible _ He). simpl.
  destruct (sanitized start <=? 0)%float eqn:E1; [reflexivity |].
  destruct (sanitized end_ <=? 0)%float eqn:E2; [reflexivity |].
  destruct (Z.leb_spec years 0) as [E3 | E3]; [reflexivity |]. simpl.
  rewrite (float_truediv_nonzero _ _ (leb_false_nonzero _ E1)). simpl.
  rewrite (int_truediv_reciprocal years E3). reflexivity.
Qed.

Lemma calculate_cagr_returns (start end_ : pyval) (years : Z) :
  root_defined rt -> convertible start -> convertible end_ ->
  exists c, calculate_cagr start end_ years = Ok c.
Proof.
  intros Hrt Hs He. rewrite (calculate_cagr_cases _ _ _ Hs He).
  destruct (sanitized start <=? 0)%float eqn:E1; [simpl; eauto |].
  destruct (sanitized end_ <=? 0)%float eqn:E2; [simpl; eauto |].
  destruct (Z.leb_spec years 0) as [E3 | E3]; [simpl; eauto |]. simpl.
  destruct (Hrt _ _ years (reciprocal years) E1 E2 E3
              (int_truediv_reciprocal years E3)) as [p ->].
  simpl. eauto.
Qed.

(** The sector lookup never raises and answers from the table. *)
Lemma limits_for_lookup (sector : str) :
  limits_for sector =
    Ok (match lookup SECTOR_LIMITS (upper sector) with
        | Some l => l
        | None => {| lim_min := 5; lim_max := 12 |}
        end).
Proof. reflexivity. Qed.

Lemma limits_for_ordered (sector : str) :
  exists l, limits_for sector = Ok l /\
            lim_min l <= lim_max l /\ -10 < lim_min l.
Proof.
  rewrite limits_for_lookup. eexists. split; [reflexivity |].
  simpl lookup.
  repeat match goal with
         | |- context [if ?c then _ else _] => destruct c
         end; simpl; lia.
Qed.

Lemma clamp_clamped (raw : float) (l : limits) :
  lim_min l <= lim_max l -> clamp raw l = Ok (clamped raw l).
Proof.
  intros Hl. unfold clamp, clamped, py_max, py_min, py_gt, py_lt. simpl.
  destruct (float_compare_int raw (lim_min l)) as [[| |] |]; simpl.
  - destruct (float_compare_int raw (lim_max l)) as [[| |] |]; reflexivity.
  - destruct (Z.compare_spec (lim_max l) (lim_min l)); try reflexivity; lia.
  - destruct (float_compare_int raw (lim_max l)) as [[| |] |]; reflexivity.
  - destruct (float_compare_int raw (lim_max l)) as [[| |] |]; reflexivity.
Qed.

Lemma clamped_not_none (raw : float) (l : limits) : clamped raw l <> PNone.
Proof.
  unfold clamped.
  destruct (float_compare_int raw (lim_min l)) as [[| |] |];
    try discriminate;
    destruct (float_compare_int raw (lim_max l)) as [[| |] |]; discriminate.
Qed.

Lemma recent_trend_last_three (v : list float) :
  (3 <= length v)%nat -> recent_trend v = Ok (recent_trend_over 2 v).
Proof.
  intros Hlen. destruct (last_three v Hlen) as (pre & a & b & c & ->).
  unfold recent_trend, recent_trend_over.
  rewrite recent_loop_last_three, last_pairs_two. simpl bind.
  apply average_mean. apply (valid_rates_length [(a, b); (b, c)]).
Qed.

Lemma getitem_last (v : list float) :
  (3 <= length v)%nat -> getitem v (-1) = Ok (last v 0%float).
Proof.
  intros Hlen. destruct (last_three v Hlen) as (pre & a & b & c & ->).
  change (-1) with (Z.of_nat 2 - Z.of_nat (length [a; b; c])).
  rewrite (getitem_from_end pre [a; b; c] 2 c eq_refl).
  change (pre ++ [a; b; c]) with (pre ++ [a; b] ++ [c]).
  now rewrite app_assoc, last_last.
Qed.

(** The engine past the short-circuit, step by step. *)
Lemma suggest_growth_steps (values : list pyval) (sector : str)
      (cleaned : list float) (cagr : float) :
  clean values = Ok cleaned ->
  (4 <= length cleaned)%nat ->
  calculate_cagr (PFloat (hd 0%float cleaned)) (PFloat (last cleaned 0%float))
                 (Z.of_nat (length cleaned) - 1) = Ok cagr ->
  let recent := recent_trend_over 2 cleaned in
  let raw := (0.6 * cagr + 0.4 * recent)%float in
  exists lim s c r,
    limits_for sector = Ok lim /\
    -10 < lim_min lim /\
    py_round (clamped raw lim) 2 = Ok s /\
    py_round (PFloat cagr) 2 = Ok c /\
    py_round (PFloat recent) 2 = Ok r /\
    suggest_growth values sector = Ok (s, c, r).
Proof.
  intros Hclean Hlen Hcagr recent raw.
  destruct (limits_for_ordered sector) as (lim & Hlim & Hord & Hlow).
  destruct (py_round_places (clamped raw lim) 2 ltac:(lia) (clamped_not_none _ _))
    as [s Hs].
  destruct (py_round_places (PFloat cagr) 2 ltac:(lia) ltac:(discriminate))
    as [c Hc].
  destruct (py_round_places (PFloat recent) 2 ltac:(lia) ltac:(discriminate))
    as [r Hr].
  exists lim, s, c, r. repeat (split; [assumption |]).
  unfold suggest_growth. rewrite Hclean. cbn [bind].
  destruct (Z.ltb_spec (Z.of_nat (length cleaned)) 4) as [C | _]; [lia |].
  assert (Hfirst : getitem cleaned 0 = Ok (hd 0%float cleaned)).
  { destruct cleaned as [| x t]; [simpl in Hlen; lia | apply getitem_first]. }
  rewrite Hfirst, (getitem_last cleaned ltac:(lia)). cbn [bind].
  rewrite Hcagr, (recent_trend_last_three cleaned ltac:(lia)). cbn [bind].
  rewrite Hlim. cbn [bind].
  rewrite (clamp_clamped _ _ Hord). cbn [bind].
  fold recent. fold raw. rewrite Hs, Hc, Hr. reflexivity.
Qed.

(** The engine at the short-circuit. *)
Lemma suggest_growth_short (values : list pyval) (sector : str)
      (cleaned : list float) :
  clean values = Ok cleaned ->
  (length cleaned < 4)%nat ->
  suggest_growth values sector = Ok (PFloat 0, PFloat 0, PFloat 0).
Proof.
  intros Hclean Hlen. unfold suggest_growth. rewrite Hclean. cbn [bind].
  destruct (Z.ltb_spec (Z.of_nat (length cleaned)) 4) as [_ | C];
    [reflexivity | lia].
Qed.
End Engine.

(** ** Strings *)

Lemma str_eqb_eq (a b : str) : str_eqb a b = true <-> a = b.
Proof.
  revert b. induction a as [| x a IH]; destruct b as [| y b]; simpl;
    try (split; [discriminate | discriminate]); [tauto |].
  rewrite andb_true_iff, N.eqb_eq, IH. split.
  - intros [-> ->]. reflexivity.
  - intros H. injection H. tauto.
Qed.

Lemma str_eqb_neq (a b : str) : a <> b -> str_eqb a b = false.
Proof.
  intros H. destruct (str_eqb a b) eqn:E; [| reflexivity].
  apply str_eqb_eq in E. contradiction.
Qed.

Lemma lookup_cons {V : Type} (k : str) (v : V) (d : list (str * V)) (x : str) :
  lookup ((k, v) :: d) x = if str_eqb k x then Some v else lookup d x.
Proof. reflexivity. Qed.

(** ** The evaluation runtime satisfies the assumption on [**] *)

Lemma sample_root_defined : root_defined sample_runtime.
Proof.
  intros s e n x _ _ _ _. simpl. unfold pow_dyadic.
  repeat match goal with
         | |- context [if ?c then _ else _] => destruct c
         end; eauto.
Qed.

(** * The claims *)

Section Claims.
Context {rt : PyRuntime}.

(** C7, as amended. On [None], on any float, and on any int whose
    nearest double is finite, [safe_float] returns a finite float and
    does not raise: [None], NaN and the infinities give [0.0], any
    other float is returned unchanged, an int is converted to its
    nearest double. *)
Theorem safe_float_finite (x : pyval) :
  convertible x ->
  exists f,
    safe_float x = Ok f /\ is_finite f = true /\
    match x with
    | PNone => f = 0%float
    | PInt z => f = Z2F z
    | PFloat g => f = if is_nan g || is_infinity g then 0%float else g
    end.
Proof.
  intros Hx. exists (sanitized x).
  split; [now apply safe_float_convertible |].
  split; [now apply sanitized_finite |].
  unfold sanitized.
  destruct x as [| z | g]; simpl in *; trivial.
  - unfold float_of_int. now rewrite Hx.
  - now destruct (is_nan g || is_infinity g).
Qed.

(** C8. The sector lookup upper-cases the tag, answers from the fixed
    table, and resolves every other tag to the DEFAULT entry (5, 12)
    without raising. *)
Theorem limits_for_table :
  (forall sector : str,
      exists l,
        limits_for sector = Ok l /\
        (upper sector = lit "ENERGY" -> l = {| lim_min := 4; lim_max := 10 |}) /\
        (upper sector = lit "IT" -> l = {| lim_min := 6; lim_max := 15 |}) /\
        (upper sector = lit "BANKING" -> l = {| lim_min := 7; lim_max := 14 |}) /\
        (upper sector = lit "FMCG" -> l = {| lim_min := 5; lim_max := 12 |}) /\
        (upper sector <> lit "ENERGY" -> upper sector <> lit "IT" ->
         upper sector <> lit "BANKING" -> upper sector <> lit "FMCG" ->
         l = {| lim_min := 5; lim_max := 12 |})) /\
  limits_for (lit "it") = Ok {| lim_min := 6; lim_max := 15 |} /\
  limits_for (lit "IT") = Ok {| lim_min := 6; lim_max := 15 |} /\
  limits_for (lit "unknown") = limits_for (lit "DEFAULT") /\
  limits_for (lit "") = limits_for (lit "DEFAULT") /\
  limits_for (lit "DEFAULT") = Ok {| lim_min := 5; lim_max := 12 |}.
Proof.
  split; [| repeat split; reflexivity].
  intros sector. rewrite limits_for_lookup. eexists. split; [reflexivity |].
  repeat split.
  - intros ->. reflexivity.
  - intros ->. reflexivity.
  - intros ->. reflexivity.
  - intros ->. reflexivity.
  - intros H1 H2 H3 H4. unfold SECTOR_LIMITS. rewrite !lookup_cons.
    rewrite (str_eqb_neq (lit "ENERGY") (upper sector)) by congruence.
    rewrite (str_eqb_neq (lit "IT") (upper sector)) by congruence.
    rewrite (str_eqb_neq (lit "BANKING") (upper sector)) by congruence.
    rewrite (str_eqb_neq (lit "FMCG") (upper sector)) by congruence.
    now destruct (str_eqb (lit "DEFAULT") (upper sector)).
Qed.

(** C4, as amended. For every start and end that [safe_float] accepts
    and every number of periods: when the sanitised start is [<= 0],
    or the sanitised end is [<= 0], or the periods are [<= 0],
    [calculate_cagr] of growth_api returns [0.0]; it neither raises nor
    divides. *)
Theorem calculate_cagr_guard (start end_ : pyval) (years : Z) :
  convertible start -> convertible end_ ->
  (sanitized start <=? 0)%float = true \/
  (sanitized end_ <=? 0)%float = true \/
  years <= 0 ->
  calculate_cagr start end_ years = Ok 0%float.
Proof.
  intros Hs He H. rewrite (calculate_cagr_cases _ _ _ Hs He).
  destruct H as [-> | [-> | H]]; trivial.
  - now rewrite orb_true_r.
  - apply Z.leb_le in H. rewrite H. now rewrite !orb_true_r.
Qed.

(** C5, as amended. For every start and end whose sanitised values are
    strictly positive and every positive number of periods,
    [calculate_cagr] of growth_api is [((end / start) ** (1 / years) - 1)
    * 100], a percentage; it raises only if [**] does. *)
Theorem calculate_cagr_formula (start end_ : pyval) (years : Z) :
  convertible start -> convertible end_ ->
  (0 <? sanitized start)%float = true ->
  (0 <? sanitized end_)%float = true ->
  0 < years ->
  int_truediv 1 years = Ok (reciprocal years) /\
  calculate_cagr start end_ years =
    p <- float_pow (sanitized end_ / sanitized start)%float (reciprocal years) ;;
    Ok ((p - 1) * 100)%float.
Proof.
  intros Hs He Ps Pe Hy. split; [now apply int_truediv_reciprocal |].
  rewrite (calculate_cagr_cases _ _ _ Hs He).
  rewrite (ltb_pos_leb_false _ Ps), (ltb_pos_leb_false _ Pe).
  destruct (Z.leb_spec years 0); [lia | reflexivity].
Qed.

(** C2, as amended. In growth_api, on a sanitised oldest-to-latest
    series of at least four values the recent-trend block examines the
    last two consecutive pairs, those among the last three values: it
    computes [((v[i+1] / v[i]) - 1) * 100] for each of the two whose
    divisor is strictly positive, skips the others, and returns the
    arithmetic mean of the rates collected, [0.0] when there is none.
    The loop of financial_model_api reads the same two pairs but has
    neither the guard nor the fallback; see [fm_recent_loop_unguarded]
    and [fm_recent_trend_negative_divisor]. *)
Theorem recent_trend_last_two_pairs (v : list float) :
  (4 <= length v)%nat ->
  exists pre a b c,
    v = pre ++ [a; b; c] /\
    last_pairs 2 v = [(a, b); (b, c)] /\
    recent_trend v = Ok (mean_or_zero (valid_rates [(a, b); (b, c)])).
Proof.
  intros Hlen.
  destruct (last_three v ltac:(lia)) as (pre & a & b & c & Hv).
  exists pre, a, b, c. split; [exact Hv |].
  rewrite (recent_trend_last_three v ltac:(lia)). unfold recent_trend_over.
  rewrite Hv, last_pairs_two. split; reflexivity.
Qed.

(** C9, as amended. When no pair of the examined window has a strictly
    positive divisor, the recent-trend block returns [0.0]. *)
Theorem recent_trend_no_valid_pair (v : list float) :
  (3 <= length v)%nat ->
  valid_pairs 2 v = 0%nat ->
  recent_trend v = Ok 0%float.
Proof.
  intros Hlen Hnone. rewrite (recent_trend_last_three v Hlen).
  unfold recent_trend_over, valid_rates. unfold valid_pairs in Hnone.
  apply length_zero_iff_nil in Hnone. now rewrite Hnone.
Qed.

(** C3, as amended. For every series of floats and in-range ints of
    which fewer than four entries pass the positivity filter of the
    engine, and so for every such series of length three or less, and
    for every sector, the engine of growth_api returns
    [(0.0, 0.0, 0.0)]. *)
Theorem suggest_growth_short_circuit (values : list pyval) (sector : str) :
  Forall numeric values ->
  (length values < 4 \/ length (filter passes values) < 4)%nat ->
  suggest_growth values sector = Ok (PFloat 0, PFloat 0, PFloat 0).
Proof.
  intros Hnum Hlen.
  apply suggest_growth_short with (cleaned := map sanitized (filter passes values)).
  - now apply clean_numeric.
  - rewrite length_map. pose proof (filter_passes_length values). lia.
Qed.


(** C1, as amended. For every series of floats (NaN, infinities, zeros
    and negatives included) and in-range ints, of any length, and every
    sector, the engine of growth_api returns a result and does not
    raise, provided [**] does not raise on the root it is asked for. The
    result is the triple of zeros or carries the rounded clamp of a
    blend as its suggestion. *)
Theorem suggest_growth_returns_on_numbers (values : list pyval) (sector : str) :
  root_defined rt ->
  Forall numeric values ->
  exists s c r,
    suggest_growth values sector = Ok (s, c, r) /\
    ((s, c, r) = (PFloat 0, PFloat 0, PFloat 0) \/
     exists lim raw,
       limits_for sector = Ok lim /\ py_round (clamped raw lim) 2 = Ok s).
Proof.
  intros Hrt Hnum.
  pose proof (clean_numeric values Hnum) as Hclean.
  set (cleaned := map sanitized (filter passes values)) in *.
  destruct (Nat.lt_ge_cases (length cleaned) 4) as [Hshort | Hlong].
  - exists (PFloat 0), (PFloat 0), (PFloat 0). split; [| now left].
    now apply suggest_growth_short with (cleaned := cleaned).
  - destruct (calculate_cagr_returns (PFloat (hd 0%float cleaned))
                (PFloat (last cleaned 0%float)) (Z.of_nat (length cleaned) - 1)
                Hrt I I) as [cagr Hcagr].
    destruct (suggest_growth_steps values sector cleaned cagr Hclean Hlong Hcagr)
      as (lim & s & c & r & Hlim & _ & Hs & _ & _ & Hres).
    exists s, c, r. split; [exact Hres |]. right. eauto.
Qed.

(** C10. The positivity filter of the cleaning step reads the raw
    value and sanitising comes after it: an entry [+inf] passes the
    filter and enters the cleaned series as [0.0]. The cleaned series is
    then not all strictly positive, the [0.0] counts toward the four
    values the engine asks for, and as the numerator of a transition of
    the recent window it yields a rate of -100%. *)
Theorem infinite_entry_cleaned_to_zero :
  (forall rest : list pyval,
      clean (PFloat infinity :: rest) = xs <- clean rest ;; Ok (0%float :: xs)) /\
  clean (floats [1; 2; 3; infinity; 5]%float) = Ok [1; 2; 3; 0; 5]%float /\
  forallb (fun x => (0 <? x)%float) [1; 2; 3; 0; 5]%float = false /\
  suggest_growth (floats [1; 2; 3; infinity]%float) (lit "DEFAULT")
    = Ok (PInt 5, PFloat 0, PFloat (-25)) /\
  growth_rate 3 0 = (-100)%float /\
  recent_trend [1; 2; 3; 0; 5]%float = Ok (-100)%float.
Proof. repeat split; reflexivity. Qed.
End Claims.

(** * Instances *)

(** Two results that hold distinct floats are distinct. *)
Ltac float_discriminate H :=
  vm_compute in H;
  first
    [ discriminate H
    | injection H; intros;
      repeat match goal with
             | E : ?x = ?y :> float |- _ =>
                 apply (f_equal (fun t => (t =? x)%float)) in E; vm_compute in E
             end;
      discriminate ].

(** ** C1 *)

Lemma suggest_growth_returns_on_numbers_witness :
  root_defined sample_runtime /\
  Forall numeric
    [PInt 100; PFloat nan; PFloat 110; PFloat infinity; PInt 0; PFloat (-3);
     PFloat 121; PFloat 133.1] /\
  exists s c r,
    @suggest_growth sample_runtime
      [PInt 100; PFloat nan; PFloat 110; PFloat infinity; PInt 0; PFloat (-3);
       PFloat 121; PFloat 133.1] (lit "it") = Ok (s, c, r) /\
    ((s, c, r) = (PFloat 0, PFloat 0, PFloat 0) \/
     exists lim raw,
       @limits_for sample_runtime (lit "it") = Ok lim /\
       py_round (clamped raw lim) 2 = Ok s).
Proof.
  assert (Hnum : Forall numeric
    [PInt 100; PFloat nan; PFloat 110; PFloat infinity; PInt 0; PFloat (-3);
     PFloat 121; PFloat 133.1])
    by (repeat constructor).
  split; [exact sample_root_defined |].
  split; [exact Hnum |].
  exact (@suggest_growth_returns_on_numbers sample_runtime _ (lit "it")
           sample_root_defined Hnum).
Defined.

(** A [None] entry reaches the comparison [v > 0] before it is
    sanitised: the engine raises [TypeError]. *)
Lemma suggest_growth_raises_on_none :
  @suggest_growth sample_runtime
    [PFloat 100; PNone; PFloat 121; PFloat 133.1; PFloat 146.41] (lit "IT")
  = Raise TypeError.
Proof. reflexivity. Qed.

(** ** C2 *)

Lemma recent_trend_last_two_pairs_witness :
  (4 <= length [100; 110; 121; 133.1; 146.41]%float)%nat /\
  exists pre a b c,
    [100; 110; 121; 133.1; 146.41]%float = pre ++ [a; b; c] /\
    last_pairs 2 [100; 110; 121; 133.1; 146.41]%float = [(a, b); (b, c)] /\
    recent_trend [100; 110; 121; 133.1; 146.41]%float
      = Ok (mean_or_zero (valid_rates [(a, b); (b, c)])).
Proof.
  assert (H : (4 <= length [100; 110; 121; 133.1; 146.41]%float)%nat)
    by (simpl; lia).
  split; [exact H |].
  exact (recent_trend_last_two_pairs [100; 110; 121; 133.1; 146.41]%float H).
Defined.

(** On [100, 200, 220, 242] the last three transitions are +100%, +10%
    and +10%; the code averages the last two only. *)
Lemma recent_trend_not_three_pairs :
  recent_trend [100; 200; 220; 242]%float
  <> Ok (recent_trend_over 3 [100; 200; 220; 242]%float).
Proof. intros H. float_discriminate H. Qed.

(** ** C3 *)

Lemma suggest_growth_short_circuit_witness :
  Forall numeric [PFloat 100; PFloat (-5); PFloat nan; PInt 120; PInt 0; PFloat 130] /\
  (length [PFloat 100; PFloat (-5); PFloat nan; PInt 120; PInt 0; PFloat 130] < 4 \/
   length (filter passes
             [PFloat 100; PFloat (-5); PFloat nan; PInt 120; PInt 0; PFloat 130]) < 4)%nat /\
  @suggest_growth sample_runtime
    [PFloat 100; PFloat (-5); PFloat nan; PInt 120; PInt 0; PFloat 130] (lit "BANKING")
  = Ok (PFloat 0, PFloat 0, PFloat 0).
Proof.
  assert (Hnum : Forall numeric
    [PFloat 100; PFloat (-5); PFloat nan; PInt 120; PInt 0; PFloat 130])
    by (repeat constructor).
  assert (Hlen : (length [PFloat 100; PFloat (-5); PFloat nan; PInt 120; PInt 0; PFloat 130] < 4 \/
     length (filter passes
               [PFloat 100; PFloat (-5); PFloat nan; PInt 120; PInt 0; PFloat 130]) < 4)%nat)
    by (right; vm_compute; lia).
  split; [exact Hnum |]. split; [exact Hlen |].
  exact (@suggest_growth_short_circuit sample_runtime _ (lit "BANKING") Hnum Hlen).
Defined.

(** In [1, 2, 3, +inf] three entries are valid (strictly positive once
    sanitised), yet the engine does not short-circuit. *)
Lemma infinite_entry_defeats_short_circuit :
  (valid_count (floats [1; 2; 3; infinity]%float) < 4)%nat /\
  @suggest_growth sample_runtime (floats [1; 2; 3; infinity]%float) (lit "DEFAULT")
  <> Ok (PFloat 0, PFloat 0, PFloat 0).
Proof.
  split; [vm_compute; lia |].
  intros H. vm_compute in H. discriminate H.
Qed.

(** ** C4 *)

Lemma calculate_cagr_guard_witness :
  convertible (PFloat (-5)) /\ convertible (PInt 3) /\
  ((sanitized (PFloat (-5)) <=? 0)%float = true \/
   (sanitized (PInt 3) <=? 0)%float = true \/ 4 <= 0) /\
  @calculate_cagr sample_runtime (PFloat (-5)) (PInt 3) 4 = Ok 0%float.
Proof.
  assert (H : (sanitized (PFloat (-5)) <=? 0)%float = true \/
              (sanitized (PInt 3) <=? 0)%float = true \/ 4 <= 0)
    by (left; reflexivity).
  split; [exact I |]. split; [reflexivity |]. split; [exact H |].
  exact (@calculate_cagr_guard sample_runtime (PFloat (-5)) (PInt 3) 4 I eq_refl H).
Defined.

(** [calculate_cagr] of financial_model_api guards the start and the end
    only: with no period it divides by zero. *)
Lemma fm_calculate_cagr_zero_years_raises :
  @FinancialModel.calculate_cagr sample_runtime (PFloat 100) (PFloat 121) 0
  = Raise ZeroDivisionError.
Proof. reflexivity. Qed.

(** ** C5 *)

Lemma calculate_cagr_formula_witness :
  convertible (PInt 100) /\ convertible (PFloat 146.41) /\
  (0 <? sanitized (PInt 100))%float = true /\
  (0 <? sanitized (PFloat 146.41))%float = true /\
  0 < 4 /\
  int_truediv 1 4 = Ok (reciprocal 4) /\
  @calculate_cagr sample_runtime (PInt 100) (PFloat 146.41) 4 =
    p <- @float_pow sample_runtime
           (sanitized (PFloat 146.41) / sanitized (PInt 100))%float (reciprocal 4) ;;
    Ok ((p - 1) * 100)%float.
Proof.
  split; [reflexivity |]. split; [exact I |].
  split; [reflexivity |]. split; [reflexivity |]. split; [reflexivity |].
  exact (@calculate_cagr_formula sample_runtime (PInt 100) (PFloat 146.41) 4
           eq_refl I eq_refl eq_refl eq_refl).
Defined.

(** [calculate_cagr] of financial_model_api returns the fraction, here
    [1.0] for a doubling over one period; growth_api returns [100.0]. *)
Lemma fm_calculate_cagr_is_fraction :
  @FinancialModel.calculate_cagr sample_runtime (PFloat 100) (PFloat 200) 1
  = Ok (PFloat 1) /\
  @calculate_cagr sample_runtime (PFloat 100) (PFloat 200) 1 = Ok 100%float.
Proof. split; reflexivity. Qed.

(** ** C6 *)


(** ** C7 *)

Lemma safe_float_finite_witness :
  convertible (PInt 5) /\
  exists f, safe_float (PInt 5) = Ok f /\ is_finite f = true /\ f = Z2F 5.
Proof.
  split; [reflexivity |].
  exact (safe_float_finite (PInt 5) eq_refl).
Defined.

(** An int past the largest double cannot be converted. *)
Lemma safe_float_int_overflow :
  safe_float (PInt (2 ^ 1024)) = Raise OverflowError.
Proof. reflexivity. Qed.

(** ** C9 *)

Lemma recent_trend_no_valid_pair_witness :
  (3 <= length [1; 2; 0; 0; 5]%float)%nat /\
  valid_pairs 2 [1; 2; 0; 0; 5]%float = 0%nat /\
  recent_trend [1; 2; 0; 0; 5]%float = Ok 0%float.
Proof.
  assert (Hlen : (3 <= length [1; 2; 0; 0; 5]%float)%nat) by (simpl; lia).
  split; [exact Hlen |]. split; [reflexivity |].
  exact (recent_trend_no_valid_pair [1; 2; 0; 0; 5]%float Hlen eq_refl).
Defined.

(** With exactly one valid pair the block returns the rate of that pair:
    in [1, 2, 3, 0, 5] only the pair (3, 0) has a positive divisor. *)
Lemma recent_trend_single_pair :
  (valid_pairs 2 [1; 2; 3; 0; 5]%float < 2)%nat /\
  recent_trend [1; 2; 3; 0; 5]%float <> Ok 0%float.
Proof.
  split; [vm_compute; lia |].
  intros H. float_discriminate H.
Qed.

(** * Companion facts *)

(** With exactly one valid pair in the window, the recent trend is the
    rate of that pair. *)
Lemma recent_trend_one_valid_pair (pre : list float) (a b c : float) :
  ((0 <? a)%float = true -> (0 <? b)%float = false ->
   recent_trend (pre ++ [a; b; c]) = Ok ((0 + growth_rate a b) / 1)%float) /\
  ((0 <? a)%float = false -> (0 <? b)%float = true ->
   recent_trend (pre ++ [a; b; c]) = Ok ((0 + growth_rate b c) / 1)%float).
Proof.
  assert (Hlen : (3 <= length (pre ++ [a; b; c]))%nat)
    by (rewrite length_app; simpl; lia).
  split; intros Ha Hb; rewrite (recent_trend_last_three _ Hlen);
    unfold recent_trend_over, valid_rates;
    rewrite last_pairs_two; simpl; rewrite Ha, Hb; reflexivity.
Qed.

(** A [None] entry raises [TypeError] at the positivity filter, whatever
    follows it, once the entries before it are cleaned. *)
Lemma clean_raises_on_none (before after : list pyval) :
  Forall numeric before ->
  clean (before ++ PNone :: after) = Raise TypeError.
Proof.
  induction 1 as [| v rest Hv _ IH]; [reflexivity |].
  simpl. rewrite (py_gt_numeric v Hv). cbn [bind].
  destruct (passes v); [| exact IH].
  rewrite (safe_float_convertible v (numeric_convertible v Hv)). cbn [bind].
  now rewrite IH.
Qed.

Lemma suggest_growth_raises_on_any_none {rt : PyRuntime}
      (before after : list pyval) (sector : str) :
  Forall numeric before ->
  suggest_growth (before ++ PNone :: after) sector = Raise TypeError.
Proof.
  intros H. unfold suggest_growth. now rewrite (clean_raises_on_none _ _ H).
Qed.

(** ** financial_model_api.py *)

Lemma py_le_float_zero (f : float) :
  py_le (PFloat f) (PInt 0) = Ok (f <=? 0)%float.
Proof.
  unfold py_le, py_compare, float_compare_int, bind.
  rewrite leb_spec. unfold SFleb.
  change (Prim2SF 0) with (S754_zero false).
  destruct (Prim2SF f) as [s | s | | s m e]; simpl; trivial;
    destruct s; trivial.
  - destruct (Z.leb_spec 0 e) as [He | He]; trivial.
    assert (0 < 2 ^ e) by (apply Z.pow_pos_nonneg; lia).
    destruct (Z.compare_spec (Zneg m * 2 ^ e) 0); trivial; nia.
  - destruct (Z.leb_spec 0 e) as [He | He]; trivial.
    assert (0 < 2 ^ e) by (apply Z.pow_pos_nonneg; lia).
    destruct (Z.compare_spec (Zpos m * 2 ^ e) 0); trivial; nia.
Qed.

Section FinancialModelFacts.
Context {rt : PyRuntime}.

(** The guard covers the start and the end, whatever the periods, and
    answers the int [0]. *)
Lemma fm_calculate_cagr_guard (s e : float) (years : Z) :
  (s <=? 0)%float = true \/ (e <=? 0)%float = true ->
  FinancialModel.calculate_cagr (PFloat s) (PFloat e) years = Ok (PInt 0).
Proof.
  intros H. unfold FinancialModel.calculate_cagr.
  rewrite !py_le_float_zero. cbn [bind].
  destruct (s <=? 0)%float; [reflexivity |].
  destruct H as [H | ->]; [discriminate | reflexivity].
Qed.

(** Past the guard the result is the fraction; without a period the
    division [1 / years] raises. *)
Lemma fm_calculate_cagr_fraction (s e : float) (years : Z) :
  (s <=? 0)%float = false -> (e <=? 0)%float = false ->
  FinancialModel.calculate_cagr (PFloat s) (PFloat e) years =
    expo <- int_truediv 1 years ;;
    p <- float_pow (e / s)%float expo ;;
    Ok (PFloat (p - 1)%float).
Proof.
  intros Hs He. unfold FinancialModel.calculate_cagr.
  rewrite !py_le_float_zero, Hs, He. cbn [bind py_truediv to_float].
  now rewrite (float_truediv_nonzero _ _ (leb_false_nonzero _ Hs)).
Qed.
Lemma floats_app (l1 l2 : list float) : floats (l1 ++ l2) = floats l1 ++ floats l2.
Proof. apply map_app. Qed.

Lemma sanitized_finite_float (f : float) :
  is_finite f = true -> sanitized (PFloat f) = f.
Proof.
  unfold sanitized, safe_float, is_finite. intros H.
  apply negb_true_iff in H. now rewrite H.
Qed.

(** On a series of finite, strictly positive floats the loop of
    financial_model_api collects the same two rates as growth_api. *)
Lemma fm_recent_loop (pre : list float) (a b c : float) :
  (0 <? a)%float = true -> (0 <? b)%float = true ->
  for_each (FinancialModel.recent_step (floats (pre ++ [a; b; c])))
           (range (-3) (-1)) []
  = Ok [growth_rate a b; growth_rate b c].
Proof.
  intros Pa Pb. change (range (-3) (-1)) with [-3; -2].
  rewrite floats_app. change (floats [a; b; c]) with [PFloat a; PFloat b; PFloat c].
  set (h := floats pre ++ [PFloat a; PFloat b; PFloat c]).
  assert (Ha : getitem h (-3) = Ok (PFloat a))
    by exact (getitem_from_end (floats pre) [PFloat a; PFloat b; PFloat c] 0 _ eq_refl).
  assert (Hb : getitem h (-2) = Ok (PFloat b))
    by exact (getitem_from_end (floats pre) [PFloat a; PFloat b; PFloat c] 1 _ eq_refl).
  assert (Hc : getitem h (-1) = Ok (PFloat c))
    by exact (getitem_from_end (floats pre) [PFloat a; PFloat b; PFloat c] 2 _ eq_refl).
  cbn [for_each]. unfold FinancialModel.recent_step.
  change (-3 + 1) with (-2). change (-2 + 1) with (-1).
  rewrite Ha, Hb, Hc. cbn [bind py_truediv to_float].
  rewrite (float_truediv_nonzero _ _ (ltb_pos_nonzero _ Pa)). cbn [bind app].
  rewrite (float_truediv_nonzero _ _ (ltb_pos_nonzero _ Pb)). reflexivity.
Qed.

(** The loop of financial_model_api has no guard: it divides by every
    divisor that is not zero, negative ones and NaN included, and
    collects the rate of both pairs. *)
Lemma fm_recent_loop_unguarded (pre : list float) (a b c : float) :
  (a =? 0)%float = false -> (b =? 0)%float = false ->
  for_each (FinancialModel.recent_step (floats (pre ++ [a; b; c])))
           (range (-3) (-1)) []
  = Ok [growth_rate a b; growth_rate b c].
Proof.
  intros Na Nb. change (range (-3) (-1)) with [-3; -2].
  rewrite floats_app. change (floats [a; b; c]) with [PFloat a; PFloat b; PFloat c].
  set (h := floats pre ++ [PFloat a; PFloat b; PFloat c]).
  assert (Ha : getitem h (-3) = Ok (PFloat a))
    by exact (getitem_from_end (floats pre) [PFloat a; PFloat b; PFloat c] 0 _ eq_refl).
  assert (Hb : getitem h (-2) = Ok (PFloat b))
    by exact (getitem_from_end (floats pre) [PFloat a; PFloat b; PFloat c] 1 _ eq_refl).
  assert (Hc : getitem h (-1) = Ok (PFloat c))
    by exact (getitem_from_end (floats pre) [PFloat a; PFloat b; PFloat c] 2 _ eq_refl).
  cbn [for_each]. unfold FinancialModel.recent_step.
  change (-3 + 1) with (-2). change (-2 + 1) with (-1).
  rewrite Ha, Hb, Hc. cbn [bind py_truediv to_float].
  rewrite (float_truediv_nonzero _ _ Na). cbn [bind app].
  rewrite (float_truediv_nonzero _ _ Nb). reflexivity.
Qed.

(** The two engines agree, up to the number of places they round to, on
    every series of at least three finite, strictly positive floats:
    financial_model_api returns the same clamped blend, CAGR and recent
    trend as growth_api, rounded to one place instead of two. *)
Lemma fm_suggest_growth_on_clean_series (l : list float) (sector : str)
      (cagr : float) :
  Forall (fun x => (0 <? x)%float = true /\ is_finite x = true) l ->
  (3 <= length l)%nat ->
  calculate_cagr (PFloat (hd 0%float l)) (PFloat (last l 0%float))
                 (Z.of_nat (length l) - 1) = Ok cagr ->
  let recent := recent_trend_over 2 l in
  let raw := (0.6 * cagr + 0.4 * recent)%float in
  exists lim s c r,
    limits_for sector = Ok lim /\
    py_round (clamped raw lim) 1 = Ok s /\
    py_round (PFloat cagr) 1 = Ok c /\
    py_round (PFloat recent) 1 = Ok r /\
    FinancialModel.suggest_growth (floats l) sector = Ok (s, c, r).
Proof.
  intros Hpos Hlen Hcagr recent raw.
  destruct (limits_for_ordered sector) as (lim & Hlim & Hord & _).
  destruct (py_round_places (clamped raw lim) 1 ltac:(lia) (clamped_not_none _ _))
    as [s Hs].
  destruct (py_round_places (PFloat cagr) 1 ltac:(lia) ltac:(discriminate))
    as [c Hc].
  destruct (py_round_places (PFloat recent) 1 ltac:(lia) ltac:(discriminate))
    as [r Hr].
  exists lim, s, c, r. repeat (split; [assumption |]).
  destruct (last_three l Hlen) as (pre & x & y & z & Hl).
  assert (Hall : forall t, In t l -> (0 <? t)%float = true /\ is_finite t = true)
    by (now apply Forall_forall).
  assert (Hfirst : In (hd 0%float l) l)
    by (destruct l; [simpl in Hlen; lia | now left]).
  assert (Hlast : last l 0%float = z).
  { rewrite Hl. change (pre ++ [x; y; z]) with (pre ++ [x; y] ++ [z]).
    now rewrite app_assoc, last_last. }
  assert (Hz : In z l) by (rewrite Hl; apply in_or_app; right; simpl; tauto).
  assert (Hx : In x l) by (rewrite Hl; apply in_or_app; right; simpl; tauto).
  assert (Hy : In y l) by (rewrite Hl; apply in_or_app; right; simpl; tauto).
  destruct (Hall _ Hfirst) as [Pf Ff]. destruct (Hall _ Hz) as [Pz Fz].
  destruct (Hall _ Hx) as [Px _]. destruct (Hall _ Hy) as [Py _].
  rewrite Hlast in Hcagr.
  rewrite (calculate_cagr_cases (PFloat (hd 0%float l)) (PFloat z) _ I I) in Hcagr.
  rewrite (sanitized_finite_float _ Ff), (sanitized_finite_float _ Fz) in Hcagr.
  rewrite (ltb_pos_leb_false _ Pf), (ltb_pos_leb_false _ Pz) in Hcagr.
  destruct (Z.leb_spec (Z.of_nat (length l) - 1) 0) as [C | Hy0]; [lia |].
  cbn [orb] in Hcagr.
  destruct (float_pow (z / hd 0%float l)%float (reciprocal (Z.of_nat (length l) - 1)))
    as [p | ex] eqn:Hp; [| discriminate].
  cbn [bind] in Hcagr. injection Hcagr as Hcagr.
  unfold FinancialModel.suggest_growth.
  assert (Hlenf : length (floats l) = length l) by apply length_map.
  rewrite Hlenf.
  assert (G0 : getitem (floats l) 0 = Ok (PFloat (hd 0%float l))).
  { destruct l as [| u t]; [simpl in Hlen; lia | apply getitem_first]. }
  assert (G1 : getitem (floats l) (-1) = Ok (PFloat z)).
  { rewrite Hl, floats_app.
    exact (getitem_from_end (floats pre) [PFloat x; PFloat y; PFloat z] 2 _ eq_refl). }
  rewrite G0, G1. cbn [bind].
  rewrite (fm_calculate_cagr_fraction _ _ _
             (ltb_pos_leb_false _ Pf) (ltb_pos_leb_false _ Pz)).
  rewrite (int_truediv_reciprocal _ Hy0). cbn [bind]. rewrite Hp. cbn [bind].
  change (py_mul (PFloat (p - 1)) (PInt 100)) with (Ok (PFloat ((p - 1) * 100))).
  rewrite Hcagr. cbn [bind].
  rewrite Hl at 1. rewrite (fm_recent_loop pre x y z Px Py). cbn [bind].
  change (float_of_int (Z.of_nat (length [growth_rate x y; growth_rate y z])))
    with (Ok 2%float).
  cbn [bind].
  change (float_truediv (py_sum [growth_rate x y; growth_rate y z]) 2)
    with (Ok (py_sum [growth_rate x y; growth_rate y z] / 2)%float).
  cbn [bind py_mul to_float].
  assert (Hrecent : recent = (py_sum [growth_rate x y; growth_rate y z] / 2)%float).
  { unfold recent, recent_trend_over. rewrite Hl, last_pairs_two.
    unfold valid_rates. simpl filter. rewrite Px, Py. reflexivity. }
  rewrite <- Hrecent. fold raw.
  change (dict_getitem FinancialModel.SECTOR_LIMITS (lit "DEFAULT"))
    with (Ok {| lim_min := 5; lim_max := 12 |}).
  cbn [bind].
  pose proof (limits_for_lookup sector) as Hlook. rewrite Hlim in Hlook.
  apply Ok_inj in Hlook.
  change (dict_get FinancialModel.SECTOR_LIMITS (upper sector)
            {| lim_min := 5; lim_max := 12 |})
    with (match lookup SECTOR_LIMITS (upper sector) with
          | Some l0 => l0
          | None => {| lim_min := 5; lim_max := 12 |}
          end).
  rewrite <- Hlook.
  pose proof (clamp_clamped raw lim Hord) as Hclamp. unfold clamp in Hclamp.
  destruct (py_max (PFloat raw) (PInt (lim_min lim))) as [low | ex];
    [| discriminate]. cbn [bind] in Hclamp |- *.
  rewrite Hclamp. cbn [bind]. rewrite Hs, Hc, Hr. reflexivity.
Qed.
End FinancialModelFacts.

(** The engine of financial_model_api has neither cleaning step nor
    short-circuit. *)
Lemma fm_suggest_growth_instances :
  @FinancialModel.suggest_growth sample_runtime [] (lit "IT") = Raise IndexError /\
  @FinancialModel.suggest_growth sample_runtime (floats [100]%float) (lit "IT")
    = Raise ZeroDivisionError /\
  @FinancialModel.suggest_growth sample_runtime (floats [100; 0; 120]%float) (lit "IT")
    = Raise ZeroDivisionError /\
  @FinancialModel.suggest_growth sample_runtime
     [PFloat 100; PNone; PFloat 121; PFloat 133.1] (lit "IT") = Raise TypeError /\
  @FinancialModel.suggest_growth sample_runtime (floats [1; 2; 3]%float) (lit "DEFAULT")
    = Ok (PInt 12, PFloat 73.2, PFloat 75) /\
  @FinancialModel.suggest_growth sample_runtime (floats [-1; 2; 3]%float) (lit "DEFAULT")
    = Ok (PInt 5, PInt 0, PFloat (-125)).
Proof. repeat split; reflexivity. Qed.

(** On the sanitised series [100, 110, -1, 2, 3] the block of growth_api
    skips the pair whose divisor is -1 and answers +50%, the rate of the
    one pair left; financial_model_api divides by -1 as well and
    averages -300% and +50%. *)
Lemma fm_recent_trend_negative_divisor :
  recent_trend [100; 110; -1; 2; 3]%float = Ok 50%float /\
  @FinancialModel.suggest_growth sample_runtime
     (floats [100; 110; -1; 2; 3]%float) (lit "IT")
    = Ok (PInt 6, PFloat (-58.4), PFloat (-125)).
Proof. split; reflexivity. Qed.

(** ** The worked example of the specification

    The series [100, 110, 121, 133.1, 146.41] with sector DEFAULT: both
    engines answer 10.0 for the suggestion, the CAGR and the recent
    trend. *)
Lemma end_to_end_example :
  @suggest_growth sample_runtime
     [PInt 100; PInt 110; PInt 121; PFloat 133.1; PFloat 146.41] (lit "DEFAULT")
    = Ok (PFloat 10, PFloat 10, PFloat 10) /\
  @FinancialModel.suggest_growth sample_runtime
     [PInt 100; PInt 110; PInt 121; PFloat 133.1; PFloat 146.41] (lit "DEFAULT")
    = Ok (PFloat 10, PFloat 10, PFloat 10).
Proof. split; reflexivity. Qed.

(** A blend above the ceiling is capped; the figures behind it are not. *)
Lemma clamp_high_example :
  @suggest_growth sample_runtime (floats [100; 150; 220; 330; 500]%float) (lit "energy")
    = Ok (PInt 10, PFloat 49.53, PFloat 50.76).
Proof. reflexivity. Qed.

(** ** The runtime model on known values *)

Lemma safe_float_instances :
  safe_float PNone = Ok 0%float /\
  safe_float (PFloat nan) = Ok 0%float /\
  safe_float (PFloat infinity) = Ok 0%float /\
  safe_float (PFloat neg_infinity) = Ok 0%float /\
  safe_float (PInt 5) = Ok 5%float /\
  safe_float (PFloat 2.5) = Ok 2.5%float.
Proof. repeat split; reflexivity. Qed.

Lemma float_of_int_range :
  float_of_int (2 ^ 1024 - 2 ^ 970 - 1) = Ok 0x1.fffffffffffffp+1023%float /\
  float_of_int (2 ^ 1024 - 2 ^ 970) = Raise OverflowError /\
  float_of_int (2 ^ 53 + 1) = Ok 9007199254740992%float /\
  float_of_int (- (2 ^ 53 + 3)) = Ok (-9007199254740996)%float.
Proof. repeat split; reflexivity. Qed.

Lemma py_round_instances :
  py_round (PFloat 2.675) 2 = Ok (PFloat 2.67) /\
  py_round (PFloat 0.125) 2 = Ok (PFloat 0.12) /\
  py_round (PFloat 0.375) 2 = Ok (PFloat 0.38) /\
  py_round (PFloat 73.92304845413264) 1 = Ok (PFloat 73.9) /\
  py_round (PFloat infinity) 2 = Ok (PFloat infinity) /\
  py_round (PInt 5) 2 = Ok (PInt 5) /\
  py_round (PFloat 1250) (-2) = Ok (PFloat 1200) /\
  py_round (PInt 1350) (-2) = Ok (PInt 1400).
Proof. repeat split; reflexivity. Qed.

Lemma int_truediv_instances :
  int_truediv 1 3 = Ok 0x1.5555555555555p-2%float /\
  int_truediv 1 4 = Ok 0.25%float /\
  int_truediv 1 0 = Raise ZeroDivisionError /\
  int_truediv (10 ^ 400) 1 = Raise OverflowError /\
  int_truediv 1 (10 ^ 400) = Ok 0%float.
Proof. repeat split; reflexivity. Qed.

Lemma upper_instances :
  @upper sample_runtime (lit "it") = lit "IT" /\
  @upper sample_runtime (lit "Fmcg") = lit "FMCG" /\
  @upper sample_runtime (lit "oil & gas") = lit "OIL & GAS".
Proof. repeat split; reflexivity. Qed.

(** * Further properties of the engines *)

(** ** Helpers *)

Lemma ltb_pos_not_nan (f : float) : (0 <? f)%float = true -> is_nan f = false.
Proof.
  unfold is_nan. rewrite ltb_spec, eqb_spec. unfold SFltb, SFeqb.
  change (Prim2SF 0) with (S754_zero false).
  destruct (Prim2SF f) as [s | s | | s m e]; simpl; try discriminate;
    destruct s; try discriminate; trivial.
  now rewrite Z.compare_refl, Pos.compare_cont_refl.
Qed.

Lemma safe_float_returns_finite (x : pyval) (f : float) :
  safe_float x = Ok f -> is_finite f = true.
Proof.
  destruct x as [| z | g]; simpl.
  - intros H. apply Ok_inj in H. now subst f.
  - unfold float_of_int. destruct (is_finite (Z2F z)) eqn:E; [| discriminate].
    intros H. apply Ok_inj in H. now subst f.
  - destruct (is_nan g || is_infinity g) eqn:E; intros H; apply Ok_inj in H; subst f;
      [reflexivity | now apply is_finite_not_nan_inf].
Qed.

Lemma safe_float_positive (f : float) :
  (0 <? f)%float = true -> safe_float (PFloat f) = Ok (inf_to_zero f).
Proof.
  intros H. unfold safe_float, inf_to_zero.
  rewrite (ltb_pos_not_nan f H). simpl. now destruct (is_infinity f).
Qed.

Lemma clean_floats (l : list float) :
  clean (floats l) = Ok (map inf_to_zero (filter (fun f => (0 <? f)%float) l)).
Proof.
  induction l as [| f l IH]; [reflexivity |].
  change (floats (f :: l)) with (PFloat f :: floats l).
  cbn [clean filter]. rewrite py_gt_float_zero. cbn [bind].
  destruct (0 <? f)%float eqn:E; [| exact IH].
  rewrite (safe_float_positive f E), IH. reflexivity.
Qed.

Lemma filter_twice {A : Type} (p : A -> bool) (l : list A) :
  filter p (filter p l) = filter p l.
Proof.
  induction l as [| a l IH]; [reflexivity |]. simpl.
  destruct (p a) eqn:E; [| exact IH]. simpl. now rewrite E, IH.
Qed.

Lemma numeric_filter (p : pyval -> bool) (values : list pyval) :
  Forall numeric values -> Forall numeric (filter p values).
Proof.
  rewrite !Forall_forall. intros H v Hv. apply filter_In in Hv. now apply H.
Qed.

(** The cleaning step ends as [clean_failure] says. *)
Lemma clean_by_failure (values : list pyval) :
  match clean_failure values with
  | Some e => clean values = Raise e
  | None => clean values = Ok (map sanitized (filter passes values))
  end.
Proof.
  induction values as [| v rest IH]; [reflexivity |].
  destruct v as [| z | f]; cbn [clean_failure clean filter].
  - reflexivity.
  - rewrite py_gt_int, passes_int. cbn [bind].
    destruct (0 <? z) eqn:Ez; cbn [andb].
    + destruct (is_finite (Z2F z)) eqn:Ef; cbn [negb].
      * assert (Hs : safe_float (PInt z) = Ok (sanitized (PInt z)))
          by (apply safe_float_convertible; exact Ef).
        rewrite Hs. cbn [bind].
        destruct (clean_failure rest); rewrite IH; reflexivity.
      * unfold safe_float, float_of_int. now rewrite Ef.
    + exact IH.
  - rewrite py_gt_float_zero, passes_float. cbn [bind].
    destruct (0 <? f)%float eqn:Ef.
    + assert (Hs : sanitized (PFloat f) = inf_to_zero f)
        by (unfold sanitized; now rewrite (safe_float_positive f Ef)).
      rewrite (safe_float_positive f Ef). cbn [bind].
      destruct (clean_failure rest); rewrite IH; [reflexivity |].
      cbn [bind map]. now rewrite Hs.
    + exact IH.
Qed.

Lemma suggest_growth_after_clean {rt : PyRuntime} (values : list pyval)
      (sector : str) (cleaned : list float) :
  root_defined rt ->
  clean values = Ok cleaned ->
  exists g c r, suggest_growth values sector = Ok (g, c, r).
Proof.
  intros Hrt Hclean.
  destruct (Nat.lt_ge_cases (length cleaned) 4) as [Hshort | Hlong].
  - exists (PFloat 0), (PFloat 0), (PFloat 0).
    now apply suggest_growth_short with (cleaned := cleaned).
  - destruct (calculate_cagr_returns (PFloat (hd 0%float cleaned))
                (PFloat (last cleaned 0%float)) (Z.of_nat (length cleaned) - 1)
                Hrt I I) as [cagr Hcagr].
    destruct (suggest_growth_steps values sector cleaned cagr Hclean Hlong Hcagr)
      as (lim & s & c & r & _ & _ & _ & _ & _ & Hres).
    eauto.
Qed.

(** ** Sanitising and cleaning *)

(** X1. Whatever [safe_float] returns is a finite float, and sanitising
    it again returns it unchanged. *)
Theorem safe_float_idempotent (x : pyval) (f : float) :
  safe_float x = Ok f ->
  is_finite f = true /\ safe_float (PFloat f) = Ok f.
Proof.
  intros H. pose proof (safe_float_returns_finite x f H) as Hf.
  split; [exact Hf |].
  unfold safe_float. unfold is_finite in Hf.
  apply negb_true_iff in Hf. now rewrite Hf.
Qed.

Lemma safe_float_idempotent_witness :
  safe_float (PInt 7) = Ok 7%float /\
  is_finite 7%float = true /\ safe_float (PFloat 7) = Ok 7%float.
Proof.
  split; [reflexivity |].
  exact (safe_float_idempotent (PInt 7) 7%float eq_refl).
Defined.

(** X2. On a series of floats the cleaning step never raises, keeps the
    strictly positive entries in their order, drops NaN and everything
    that is not strictly positive, and alters nothing but [+inf], which
    it turns into [0.0]. *)
Theorem clean_keeps_positive_floats (l : list float) :
  clean (floats l) = Ok (map inf_to_zero (filter (fun f => (0 <? f)%float) l)) /\
  (forall f, In f (filter (fun f => (0 <? f)%float) l) ->
             is_nan f = false /\ (inf_to_zero f = f \/ f = infinity /\ inf_to_zero f = 0%float)).
Proof.
  split; [apply clean_floats |].
  intros f Hf. apply filter_In in Hf as [_ Hpos].
  split; [now apply ltb_pos_not_nan |].
  unfold inf_to_zero. destruct (is_infinity f) eqn:E; [right | now left].
  split; [| reflexivity].
  unfold is_infinity in E.
  apply Prim2SF_inj. revert E Hpos.
  rewrite eqb_spec, abs_spec, ltb_spec. unfold SFeqb, SFltb.
  change (Prim2SF infinity) with (S754_infinity false).
  change (Prim2SF 0) with (S754_zero false).
  destruct (Prim2SF f) as [s | s | | s m e]; simpl; try discriminate;
    destruct s; try discriminate; trivial.
Qed.

(** The report of the engine, once the CAGR and the recent trend are
    known, never raises, and only its first component reads the sector. *)
Lemma suggest_growth_report {rt : PyRuntime} (cagr recent : float) (sector : str) :
  exists g c r,
    py_round (PFloat cagr) 2 = Ok c /\
    py_round (PFloat recent) 2 = Ok r /\
    (lim <- limits_for sector ;;
     final <- clamp (0.6 * cagr + 0.4 * recent)%float lim ;;
     r1 <- py_round final 2 ;;
     r2 <- py_round (PFloat cagr) 2 ;;
     r3 <- py_round (PFloat recent) 2 ;;
     Ok (r1, r2, r3)) = Ok (g, c, r).
Proof.
  destruct (limits_for_ordered sector) as (lim & Hlim & Hord & _).
  destruct (py_round_places (clamped (0.6 * cagr + 0.4 * recent)%float lim) 2
              ltac:(lia) (clamped_not_none _ _)) as [g Hg].
  destruct (py_round_places (PFloat cagr) 2 ltac:(lia) ltac:(discriminate))
    as [c Hc].
  destruct (py_round_places (PFloat recent) 2 ltac:(lia) ltac:(discriminate))
    as [r Hr].
  exists g, c, r. repeat (split; [assumption |]).
  rewrite Hlim. cbn [bind]. rewrite (clamp_clamped _ _ Hord). cbn [bind].
  now rewrite Hg, Hc, Hr.
Qed.

Section EngineProperties.
Context {rt : PyRuntime}.

(** X3. Entries that fail the positivity filter are invisible: taking
    the non-positive and NaN entries out of a series of floats and
    in-range ints changes neither the result nor the exception. *)
Theorem suggest_growth_ignores_filtered (values : list pyval) (sector : str) :
  Forall numeric values ->
  suggest_growth (filter passes values) sector = suggest_growth values sector.
Proof.
  intros Hnum. unfold suggest_growth.
  rewrite (clean_numeric values Hnum).
  rewrite (clean_numeric _ (numeric_filter passes values Hnum)).
  now rewrite filter_twice.
Qed.

(** X4. The engine fails exactly as its cleaning step does: with
    [TypeError] when the first entry it cannot clean is a [None], with
    [OverflowError] when it is a positive int past the range of doubles;
    on every other series it returns a result, provided [**] does not
    raise on the root it is asked for. *)
Theorem suggest_growth_fails_as_cleaning (values : list pyval) (sector : str) :
  root_defined rt ->
  match clean_failure values with
  | Some e => suggest_growth values sector = Raise e
  | None => exists g c r, suggest_growth values sector = Ok (g, c, r)
  end.
Proof.
  intros Hrt. pose proof (clean_by_failure values) as H.
  destruct (clean_failure values) as [e |].
  - unfold suggest_growth. now rewrite H.
  - now apply suggest_growth_after_clean with (cleaned := map sanitized (filter passes values)).
Qed.

(** X5. The sector reaches the suggestion only: for two sectors the
    engine raises the same exception or returns the same CAGR and the
    same recent trend. *)
Theorem suggest_growth_sector_independent (values : list pyval) (s1 s2 : str) :
  (forall e, suggest_growth values s1 = Raise e -> suggest_growth values s2 = Raise e) /\
  (forall g c r, suggest_growth values s1 = Ok (g, c, r) ->
                 exists g', suggest_growth values s2 = Ok (g', c, r)).
Proof.
  unfold suggest_growth.
  destruct (clean values) as [cleaned | e0]; cbn [bind]; [| split; [trivial | discriminate]].
  destruct (Z.of_nat (length cleaned) <? 4); [split; [discriminate | eauto] |].
  destruct (getitem cleaned 0) as [first | e0]; cbn [bind];
    [| split; [trivial | discriminate]].
  destruct (getitem cleaned (-1)) as [lst | e0]; cbn [bind];
    [| split; [trivial | discriminate]].
  destruct (calculate_cagr (PFloat first) (PFloat lst) (Z.of_nat (length cleaned) - 1))
    as [cagr | e0]; cbn [bind]; [| split; [trivial | discriminate]].
  destruct (recent_trend cleaned) as [recent | e0]; cbn [bind];
    [| split; [trivial | discriminate]].
  cbv zeta.
  destruct (suggest_growth_report cagr recent s1) as (g1 & c1 & r1 & Hc1 & Hr1 & H1).
  destruct (suggest_growth_report cagr recent s2) as (g2 & c2 & r2 & Hc2 & Hr2 & H2).
  rewrite H1, H2. split; [discriminate |].
  intros g c r H. apply Ok_inj in H. exists g2.
  assert (c2 = c1) by congruence. assert (r2 = r1) by congruence.
  congruence.
Qed.

(** X6. Of the cleaned series the engine reads the length, the first
    value and the last three values: two series that agree on these get
    the same answer, whatever lies in between. *)
Theorem suggest_growth_reads_ends (v1 v2 : list pyval) (sector : str)
        (x a b c : float) (mid1 mid2 : list float) :
  clean v1 = Ok (x :: mid1 ++ [a; b; c]) ->
  clean v2 = Ok (x :: mid2 ++ [a; b; c]) ->
  length mid1 = length mid2 ->
  suggest_growth v1 sector = suggest_growth v2 sector.
Proof.
  intros H1 H2 Hlen.
  assert (Hparts : forall v mid,
    clean v = Ok (x :: mid ++ [a; b; c]) ->
    suggest_growth v sector =
      (cagr <- calculate_cagr (PFloat x) (PFloat c) (Z.of_nat (length mid) + 3) ;;
       let recent := mean_or_zero (valid_rates [(a, b); (b, c)]) in
       lim <- limits_for sector ;;
       final <- clamp (0.6 * cagr + 0.4 * recent)%float lim ;;
       r1 <- py_round final 2 ;;
       r2 <- py_round (PFloat cagr) 2 ;;
       r3 <- py_round (PFloat recent) 2 ;;
       Ok (r1, r2, r3))).
  { intros v mid Hv. unfold suggest_growth. rewrite Hv. cbn [bind].
    assert (Hl : length (x :: mid ++ [a; b; c]) = (length mid + 4)%nat)
      by (simpl; rewrite length_app; simpl; lia).
    rewrite Hl.
    destruct (Z.ltb_spec (Z.of_nat (length mid + 4)) 4) as [C | _]; [lia |].
    rewrite getitem_first.
    change (x :: mid ++ [a; b; c]) with ((x :: mid) ++ [a; b; c]).
    change (-1) with (Z.of_nat 2 - Z.of_nat (length [a; b; c])).
    rewrite (getitem_from_end (x :: mid) [a; b; c] 2 c eq_refl). cbn [bind].
    replace (Z.of_nat (length mid + 4) - 1) with (Z.of_nat (length mid) + 3) by lia.
    assert (Hr : recent_trend ((x :: mid) ++ [a; b; c])
                 = Ok (mean_or_zero (valid_rates [(a, b); (b, c)]))).
    { rewrite recent_trend_last_three by (rewrite length_app; simpl; lia).
      unfold recent_trend_over. now rewrite last_pairs_two. }
    rewrite Hr. reflexivity. }
  rewrite (Hparts v1 mid1 H1), (Hparts v2 mid2 H2), Hlen. reflexivity.
Qed.

(** X7. A blend below the floor of the sector, or above its ceiling, is
    answered by the bound itself, the int of the table, which rounding
    leaves as it is. *)
Theorem suggest_growth_answers_bound (values : list pyval) (sector : str)
        (cleaned : list float) (cagr : float) (lim : limits) :
  clean values = Ok cleaned ->
  (4 <= length cleaned)%nat ->
  calculate_cagr (PFloat (hd 0%float cleaned)) (PFloat (last cleaned 0%float))
                 (Z.of_nat (length cleaned) - 1) = Ok cagr ->
  limits_for sector = Ok lim ->
  let raw := (0.6 * cagr + 0.4 * recent_trend_over 2 cleaned)%float in
  (float_compare_int raw (lim_min lim) = Some Lt ->
   exists c r, suggest_growth values sector = Ok (PInt (lim_min lim), c, r)) /\
  (float_compare_int raw (lim_min lim) = Some Gt ->
   float_compare_int raw (lim_max lim) = Some Gt ->
   exists c r, suggest_growth values sector = Ok (PInt (lim_max lim), c, r)).
Proof.
  intros Hclean Hlen Hcagr Hlim raw.
  destruct (suggest_growth_steps values sector cleaned cagr Hclean Hlen Hcagr)
    as (lim' & s & c & r & Hlim' & _ & Hs & _ & _ & Hres).
  assert (lim' = lim) by congruence. subst lim'. fold raw in Hs.
  unfold clamped in Hs.
  split.
  - intros Hlow. rewrite Hlow in Hs. simpl in Hs.
    apply Ok_inj in Hs. subst s. eauto.
  - intros Hlow Hhigh. rewrite Hlow, Hhigh in Hs. simpl in Hs.
    apply Ok_inj in Hs. subst s. eauto.
Qed.

(** X8. On a series sanitised before it reaches the engine, as the
    retrieval step of growth_api hands it over, the short-circuit counts
    valid values: when fewer than four cells are strictly positive once
    sanitised, the engine returns [(0.0, 0.0, 0.0)], whatever else the
    cells hold ([None], NaN and infinities included). *)
Theorem suggest_growth_short_on_sanitized (cells : list pyval) (series : list float)
        (sector : str) :
  sanitize_all cells = Ok series ->
  (valid_count cells < 4)%nat ->
  suggest_growth (floats series) sector = Ok (PFloat 0, PFloat 0, PFloat 0).
Proof.
  intros Hsan Hcount.
  apply suggest_growth_short
    with (cleaned := map inf_to_zero (filter (fun f => (0 <? f)%float) series)).
  - apply clean_floats.
  - rewrite length_map.
    assert (Hlen : length (filter (fun f => (0 <? f)%float) series) = valid_count cells).
    { clear Hcount. revert series Hsan.
      induction cells as [| x rest IH]; intros series Hsan.
      - apply Ok_inj in Hsan. now subst series.
      - cbn [sanitize_all] in Hsan.
        destruct (safe_float x) as [f |] eqn:Hx; [| discriminate].
        cbn [bind] in Hsan.
        destruct (sanitize_all rest) as [fs |]; [| discriminate].
        cbn [bind] in Hsan. apply Ok_inj in Hsan. subst series.
        unfold valid_count. cbn [filter].
        assert (Hs : sanitized x = f) by (unfold sanitized; now rewrite Hx).
        rewrite Hs. specialize (IH fs eq_refl). unfold valid_count in IH.
        destruct (0 <? f)%float; simpl; now rewrite IH. }
    lia.
Qed.
End EngineProperties.

(** ** The engine of financial_model_api.py *)

Lemma floats_positive_clean (l : list float) :
  Forall (fun x => (0 <? x)%float = true /\ is_finite x = true) l ->
  map inf_to_zero (filter (fun f => (0 <? f)%float) l) = l.
Proof.
  induction 1 as [| x l [Hp Hf] _ IH]; [reflexivity |].
  cbn [filter]. rewrite Hp. cbn [map]. rewrite IH. f_equal.
  unfold inf_to_zero. unfold is_finite in Hf. apply negb_true_iff in Hf.
  apply orb_false_iff in Hf as [_ Hi]. now rewrite Hi.
Qed.

Section FinancialModelProperties.
Context {rt : PyRuntime}.

Lemma fm_short_series_raise (h : list pyval) (sector : str) :
  (length h < 3)%nat ->
  exists e, FinancialModel.suggest_growth h sector = Raise e.
Proof.
  intros Hlen. unfold FinancialModel.suggest_growth.
  destruct h as [| x [| y [| z t]]]; [| | | simpl in Hlen; lia].
  - eexists. reflexivity.
  - change (getitem [x] 0) with (Ok x). change (getitem [x] (-1)) with (Ok x).
    cbn [bind length]. change (Z.of_nat 1 - 1) with 0.
    unfold FinancialModel.calculate_cagr.
    destruct (py_le x (PInt 0)) as [[|] | e]; cbn [bind]; [| | eauto].
    + eexists. reflexivity.
    + destruct (py_truediv x x) as [q | e]; cbn [bind]; eexists; reflexivity.
  - change (getitem [x; y] 0) with (Ok x). change (getitem [x; y] (-1)) with (Ok y).
    cbn [bind].
    destruct (FinancialModel.calculate_cagr x y (Z.of_nat (length [x; y]) - 1))
      as [c | e]; cbn [bind]; [| eauto].
    destruct (py_mul c (PInt 100)) as [cagr | e]; cbn [bind]; [| eauto].
    eexists. reflexivity.
Qed.

(** X9. The engine of financial_model_api never answers a series of
    fewer than three values: whatever the values and the sector, it
    raises. *)
Theorem fm_suggest_growth_needs_three (h : list pyval) (sector : str) :
  (length h < 3)%nat ->
  exists e, FinancialModel.suggest_growth h sector = Raise e.
Proof. apply fm_short_series_raise. Qed.

Lemma fm_calculate_cagr_floats (s e : float) (years : Z) :
  root_defined rt -> 0 < years ->
  exists c cagr,
    FinancialModel.calculate_cagr (PFloat s) (PFloat e) years = Ok c /\
    py_mul c (PInt 100) = Ok cagr.
Proof.
  intros Hrt Hy.
  destruct (s <=? 0)%float eqn:Es;
    [exists (PInt 0), (PInt 0); split;
       [apply fm_calculate_cagr_guard; now left | reflexivity] |].
  destruct (e <=? 0)%float eqn:Ee;
    [exists (PInt 0), (PInt 0); split;
       [apply fm_calculate_cagr_guard; now right | reflexivity] |].
  rewrite (fm_calculate_cagr_fraction s e years Es Ee).
  rewrite (int_truediv_reciprocal years Hy). cbn [bind].
  destruct (Hrt s e years (reciprocal years) Es Ee Hy (int_truediv_reciprocal years Hy))
    as [p ->].
  cbn [bind]. eexists. eexists. split; reflexivity.
Qed.

Lemma fm_recent_loop_zero (pre : list float) (a b c : float) :
  (a =? 0)%float = true \/ (b =? 0)%float = true ->
  for_each (FinancialModel.recent_step (floats (pre ++ [a; b; c])))
           (range (-3) (-1)) []
  = Raise ZeroDivisionError.
Proof.
  intros Hzero. change (range (-3) (-1)) with [-3; -2].
  rewrite floats_app. change (floats [a; b; c]) with [PFloat a; PFloat b; PFloat c].
  set (h := floats pre ++ [PFloat a; PFloat b; PFloat c]).
  assert (Ha : getitem h (-3) = Ok (PFloat a))
    by exact (getitem_from_end (floats pre) [PFloat a; PFloat b; PFloat c] 0 _ eq_refl).
  assert (Hb : getitem h (-2) = Ok (PFloat b))
    by exact (getitem_from_end (floats pre) [PFloat a; PFloat b; PFloat c] 1 _ eq_refl).
  assert (Hc : getitem h (-1) = Ok (PFloat c))
    by exact (getitem_from_end (floats pre) [PFloat a; PFloat b; PFloat c] 2 _ eq_refl).
  cbn [for_each]. unfold FinancialModel.recent_step.
  change (-3 + 1) with (-2). change (-2 + 1) with (-1).
  rewrite Ha, Hb, Hc. cbn [bind py_truediv to_float]. unfold float_truediv.
  destruct (a =? 0)%float; [reflexivity |]. cbn [bind app].
  destruct Hzero as [Hz | Hz]; [discriminate |]. now rewrite Hz.
Qed.

(** X10. Where growth_api skips a pair whose divisor is zero, the engine
    of financial_model_api divides: on a series of floats whose value
    three or two places from the end is zero it raises
    [ZeroDivisionError], provided [**] does not raise first. *)
Theorem fm_suggest_growth_zero_divisor (pre : list float) (a b c : float)
        (sector : str) :
  root_defined rt ->
  (a =? 0)%float = true \/ (b =? 0)%float = true ->
  FinancialModel.suggest_growth (floats (pre ++ [a; b; c])) sector
  = Raise ZeroDivisionError.
Proof.
  intros Hrt Hzero. unfold FinancialModel.suggest_growth.
  set (l := pre ++ [a; b; c]).
  assert (Hlen : (3 <= length l)%nat) by (unfold l; rewrite length_app; simpl; lia).
  assert (Hlenf : length (floats l) = length l) by apply length_map.
  assert (G0 : getitem (floats l) 0 = Ok (PFloat (hd 0%float l))).
  { destruct l as [| u t]; [simpl in Hlen; lia | apply getitem_first]. }
  assert (G1 : getitem (floats l) (-1) = Ok (PFloat c)).
  { unfold l. rewrite floats_app.
    exact (getitem_from_end (floats pre) [PFloat a; PFloat b; PFloat c] 2 _ eq_refl). }
  rewrite G0, G1, Hlenf. cbn [bind].
  destruct (fm_calculate_cagr_floats (hd 0%float l) c (Z.of_nat (length l) - 1)
              Hrt ltac:(lia)) as (cv & cagr & Hcv & Hcagr).
  rewrite Hcv. cbn [bind]. rewrite Hcagr. cbn [bind].
  unfold l. now rewrite (fm_recent_loop_zero pre a b c Hzero).
Qed.

(** X11. On a series of at least four finite, strictly positive floats
    the two engines agree up to the places they round to: whenever
    growth_api answers, financial_model_api answers with the same
    clamped blend, the same CAGR and the same recent trend, rounded to
    one place where growth_api rounds to two. *)
Theorem engines_agree_on_clean_series (l : list float) (sector : str)
        (g c r : pyval) :
  Forall (fun x => (0 <? x)%float = true /\ is_finite x = true) l ->
  (4 <= length l)%nat ->
  suggest_growth (floats l) sector = Ok (g, c, r) ->
  exists lim cagr g' c' r',
    let recent := recent_trend_over 2 l in
    let blend := clamped (0.6 * cagr + 0.4 * recent)%float lim in
    limits_for sector = Ok lim /\
    py_round blend 2 = Ok g /\
    py_round (PFloat cagr) 2 = Ok c /\
    py_round (PFloat recent) 2 = Ok r /\
    py_round blend 1 = Ok g' /\
    py_round (PFloat cagr) 1 = Ok c' /\
    py_round (PFloat recent) 1 = Ok r' /\
    FinancialModel.suggest_growth (floats l) sector = Ok (g', c', r').
Proof.
  intros Hpos Hlen Hres.
  assert (Hclean : clean (floats l) = Ok l)
    by (rewrite clean_floats; now rewrite floats_positive_clean).
  destruct (calculate_cagr (PFloat (hd 0%float l)) (PFloat (last l 0%float))
              (Z.of_nat (length l) - 1)) as [cagr | e] eqn:Hcagr.
  - destruct (suggest_growth_steps (floats l) sector l cagr Hclean Hlen Hcagr)
      as (lim & s & c0 & r0 & Hlim & _ & Hs & Hc & Hr & Hgrowth).
    rewrite Hgrowth in Hres. apply Ok_inj in Hres.
    injection Hres as -> -> ->.
    destruct (fm_suggest_growth_on_clean_series l sector cagr Hpos ltac:(lia) Hcagr)
      as (lim' & g' & c' & r' & Hlim' & Hg' & Hc' & Hr' & Hfm).
    assert (lim' = lim) by congruence. subst lim'.
    exists lim, cagr, g', c', r'. cbv zeta. repeat split; assumption.
  - exfalso. unfold suggest_growth in Hres. rewrite Hclean in Hres.
    cbn [bind] in Hres.
    destruct (Z.ltb_spec (Z.of_nat (length l)) 4) as [C | _]; [lia |].
    assert (Hfirst : getitem l 0 = Ok (hd 0%float l)).
    { destruct l as [| x t]; [simpl in Hlen; lia | apply getitem_first]. }
    rewrite Hfirst, (getitem_last l ltac:(lia)) in Hres. cbn [bind] in Hres.
    rewrite Hcagr in Hres. discriminate.
Qed.
End FinancialModelProperties.

(** X12. The endpoint of financial_model_api answers only when each of
    the three histories has at least three values; with a shorter one it
    raises. *)
Theorem growth_engine_needs_three {rt : PyRuntime} (company_name sector : str)
        (revenue_history ebitda_history pat_history : list pyval) :
  (length revenue_history < 3 \/ length ebitda_history < 3 \/
   length pat_history < 3)%nat ->
  exists e,
    FinancialModelService.growth_engine company_name sector
      revenue_history ebitda_history pat_history = Raise e.
Proof.
  intros H. unfold FinancialModelService.growth_engine.
  destruct (FinancialModel.suggest_growth revenue_history sector) as [[[g1 c1] r1] | e1] eqn:E1;
    cbn [bind]; [| eauto].
  destruct (FinancialModel.suggest_growth ebitda_history sector) as [[[g2 c2] r2] | e2] eqn:E2;
    cbn [bind]; [| eauto].
  destruct (FinancialModel.suggest_growth pat_history sector) as [[[g3 c3] r3] | e3] eqn:E3;
    cbn [bind]; [| eauto].
  exfalso. destruct H as [H | [H | H]];
    destruct (fm_short_series_raise _ sector H) as [e He]; congruence.
Qed.

(** ** The service layer of growth_api.py *)

Lemma has_row_lookup (fin : frame) (label : str) :
  has_row fin label = match lookup fin label with Some _ => true | None => false end.
Proof.
  induction fin as [| [k row] fin IH]; [reflexivity |].
  unfold has_row in *. cbn [existsb lookup fst].
  destruct (str_eqb k label); [reflexivity | exact IH].
Qed.

Lemma sanitize_all_floats (l : list float) :
  sanitize_all (floats l) = Ok (map (fun f => sanitized (PFloat f)) l).
Proof.
  induction l as [| f l IH]; [reflexivity |].
  change (floats (f :: l)) with (PFloat f :: floats l). cbn [sanitize_all].
  rewrite (safe_float_convertible (PFloat f) I), IH. reflexivity.
Qed.

Lemma sanitize_all_finite (cells : list pyval) (series : list float) :
  sanitize_all cells = Ok series ->
  length series = length cells /\ Forall (fun f => is_finite f = true) series.
Proof.
  revert series. induction cells as [| x rest IH]; intros series H.
  - apply Ok_inj in H. subst series. split; [reflexivity | constructor].
  - cbn [sanitize_all] in H.
    destruct (safe_float x) as [f |] eqn:Hx; [| discriminate]. cbn [bind] in H.
    destruct (sanitize_all rest) as [fs |]; [| discriminate]. cbn [bind] in H.
    apply Ok_inj in H. subst series. destruct (IH fs eq_refl) as [Hl Hf].
    split; [simpl; now rewrite Hl |].
    constructor; [exact (safe_float_returns_finite x f Hx) | exact Hf].
Qed.

Lemma scale_floats (l : list float) (k : float) :
  scale (floats l) k = Ok (floats (map (fun x => (x * k)%float) l)).
Proof.
  induction l as [| f l IH]; [reflexivity |].
  change (floats (f :: l)) with (PFloat f :: floats l). cbn [scale].
  rewrite IH. reflexivity.
Qed.

Lemma floats_rev (l : list float) : rev (floats l) = floats (rev l).
Proof. unfold floats. now rewrite map_rev. Qed.

Section ServiceProperties.
Context {rt : PyRuntime} {provider : Provider}.

(** What a successful retrieval went through. *)
Lemma fetch_financials_done (ticker : str) (rv eb pt : list float) :
  GrowthService.fetch_financials ticker = Done (rv, eb, pt) ->
  exists fin rrow erow prow,
    financials ticker = Done (Some fin) /\
    frame_empty fin = false /\
    lookup fin (lit "Total Revenue") = Some rrow /\
    lookup fin (lit "Net Income") = Some prow /\
    GrowthService.ebitda_row fin rrow = Ok erow /\
    sanitize_all (rev rrow) = Ok rv /\
    sanitize_all (rev erow) = Ok eb /\
    sanitize_all (rev prow) = Ok pt.
Proof.
  unfold GrowthService.fetch_financials.
  destruct (financials ticker) as [[fin |] | e] eqn:Hfin; cbn [and_then];
    try discriminate.
  destruct (frame_empty fin) eqn:Hempty; [discriminate |].
  rewrite !has_row_lookup. unfold dict_getitem.
  destruct (lookup fin (lit "Total Revenue")) as [rrow |] eqn:Hr; cbn [negb];
    [| discriminate].
  cbn [lift and_then].
  destruct (lookup fin (lit "Net Income")) as [prow |] eqn:Hp; cbn [lift and_then];
    [| discriminate].
  destruct (GrowthService.ebitda_row fin rrow) as [erow | e] eqn:He;
    cbn [lift and_then]; [| discriminate].
  destruct (sanitize_all (rev rrow)) as [rv' | e] eqn:Sr; cbn [lift and_then];
    [| discriminate].
  destruct (sanitize_all (rev erow)) as [eb' | e] eqn:Se; cbn [lift and_then];
    [| discriminate].
  destruct (sanitize_all (rev prow)) as [pt' | e] eqn:Sp; cbn [lift and_then];
    [| discriminate].
  intros H. injection H as <- <- <-.
  exists fin, rrow, erow, prow. repeat split; assumption || reflexivity.
Qed.

(** X13. Missing data is answered with status 400 and a fixed detail, in
    this order: no table or an empty one is "Financial data not
    available"; a table without the row Total Revenue is "Revenue
    missing", whatever else it holds; a table with revenue and without
    the row Net Income is "PAT missing", even when an EBITDA row is
    there. A failure of the provider is passed on as it is. *)
Theorem growth_api_retrieval_errors (ticker sector : str) :
  (forall e, financials ticker = Failed e ->
             GrowthService.growth_api ticker sector = Http400 e) /\
  (financials ticker = Done None ->
   GrowthService.growth_api ticker sector
   = Http400 (ValueError "Financial data not available")) /\
  (forall fin, financials ticker = Done (Some fin) ->
     (frame_empty fin = true ->
      GrowthService.growth_api ticker sector
      = Http400 (ValueError "Financial data not available")) /\
     (frame_empty fin = false -> has_row fin (lit "Total Revenue") = false ->
      GrowthService.growth_api ticker sector = Http400 (ValueError "Revenue missing")) /\
     (frame_empty fin = false -> has_row fin (lit "Total Revenue") = true ->
      has_row fin (lit "Net Income") = false ->
      GrowthService.growth_api ticker sector = Http400 (ValueError "PAT missing"))).
Proof.
  unfold GrowthService.growth_api, GrowthService.fetch_financials.
  split; [intros e -> ; reflexivity |].
  split; [intros ->; reflexivity |].
  intros fin ->. cbn [and_then]. repeat split.
  - intros ->. reflexivity.
  - intros -> ->. reflexivity.
  - intros -> Hrev Hpat. rewrite Hrev, Hpat. cbn [negb].
    rewrite has_row_lookup in Hrev. unfold dict_getitem.
    destruct (lookup fin (lit "Total Revenue")); [reflexivity | discriminate].
Qed.

(** X14. From a non-empty table of floats that has the rows Total
    Revenue and Net Income, retrieval succeeds: each series is its row
    reversed, oldest period first, with NaN and infinite cells turned into
    [0.0]; the EBITDA series comes from the row Ebitda, else EBIT, else
    Operating Income, else from 15% of each revenue cell. *)
Theorem fetch_financials_on_floats (ticker : str) (fin : frame) (r p : list float) :
  financials ticker = Done (Some fin) ->
  frame_empty fin = false ->
  lookup fin (lit "Total Revenue") = Some (floats r) ->
  lookup fin (lit "Net Income") = Some (floats p) ->
  (forall label row, lookup fin label = Some row -> exists l, row = floats l) ->
  exists e,
    match lookup fin (lit "Ebitda"), lookup fin (lit "EBIT"),
          lookup fin (lit "Operating Income") with
    | Some row, _, _ | None, Some row, _ | None, None, Some row => row = floats e
    | None, None, None => e = map (fun x => (x * 0.15)%float) r
    end /\
    GrowthService.fetch_financials ticker =
      Done (map (fun f => sanitized (PFloat f)) (rev r),
            map (fun f => sanitized (PFloat f)) (rev e),
            map (fun f => sanitized (PFloat f)) (rev p)).
Proof.
  intros Hfin Hempty Hrev Hpat Hcells.
  assert (Hsource : exists e,
    match lookup fin (lit "Ebitda"), lookup fin (lit "EBIT"),
          lookup fin (lit "Operating Income") with
    | Some row, _, _ | None, Some row, _ | None, None, Some row => row = floats e
    | None, None, None => e = map (fun x => (x * 0.15)%float) r
    end /\ GrowthService.ebitda_row fin (floats r) = Ok (floats e)).
  { unfold GrowthService.ebitda_row. rewrite !has_row_lookup. unfold dict_getitem.
    destruct (lookup fin (lit "Ebitda")) as [row |] eqn:E1.
    { destruct (Hcells _ _ E1) as [l ->]. now exists l. }
    destruct (lookup fin (lit "EBIT")) as [row |] eqn:E2.
    { destruct (Hcells _ _ E2) as [l ->]. now exists l. }
    destruct (lookup fin (lit "Operating Income")) as [row |] eqn:E3.
    { destruct (Hcells _ _ E3) as [l ->]. now exists l. }
    eexists. split; [reflexivity | apply scale_floats]. }
  destruct Hsource as (e & Hprio & Hrow).
  exists e. split; [exact Hprio |].
  unfold GrowthService.fetch_financials. rewrite Hfin. cbn [and_then].
  rewrite Hempty, !has_row_lookup. unfold dict_getitem. rewrite Hrev, Hpat.
  cbn [negb lift and_then]. rewrite Hrow. cbn [lift and_then].
  rewrite !floats_rev, !sanitize_all_floats. reflexivity.
Qed.

(** X15. Whatever the table holds, the series a successful retrieval
    hands over are finite floats, no NaN and no infinity among them, and
    the revenue and profit series are as long as their rows. *)
Theorem fetch_financials_hands_over_finite (ticker : str) (rv eb pt : list float) :
  GrowthService.fetch_financials ticker = Done (rv, eb, pt) ->
  Forall (fun f => is_finite f = true) (rv ++ eb ++ pt) /\
  exists fin rrow prow,
    financials ticker = Done (Some fin) /\
    lookup fin (lit "Total Revenue") = Some rrow /\
    lookup fin (lit "Net Income") = Some prow /\
    length rv = length rrow /\ length pt = length prow.
Proof.
  intros H.
  destruct (fetch_financials_done ticker rv eb pt H)
    as (fin & rrow & erow & prow & Hfin & _ & Hr & Hp & _ & Sr & Se & Sp).
  destruct (sanitize_all_finite _ _ Sr) as [Lr Fr].
  destruct (sanitize_all_finite _ _ Se) as [_ Fe].
  destruct (sanitize_all_finite _ _ Sp) as [Lp Fp].
  rewrite length_rev in Lr, Lp.
  split; [rewrite !Forall_app; tauto |].
  exists fin, rrow, prow. repeat split; assumption.
Qed.

(** X16. The handler of growth_api raises only for a failure of the
    retrieval: when [fetch_financials] fails, the handler raises its
    [HTTPException] of status 400 with that failure; when it has
    succeeded, the engine does not raise on any of the three series and
    the handler returns its dict, which names the ticker and the sector
    as they were given and holds for each metric the three figures the
    engine returned.  The figures of a returned dict need not be finite
    ([growth_api_returns_infinite_figures]). *)
Theorem growth_api_handler_returns_after_retrieval (ticker sector : str) :
  root_defined rt ->
  match GrowthService.fetch_financials ticker with
  | Failed e => GrowthService.growth_api ticker sector = Http400 e
  | Done (rv, eb, pt) =>
      exists body,
        GrowthService.growth_api ticker sector = Returned body /\
        company body = ticker /\ sector_tag body = sector /\
        suggest_growth (floats rv) sector
          = Ok (Revenue (suggested_growth body),
                CAGR_pct (Revenue (analysis body)),
                Recent_pct (Revenue (analysis body))) /\
        suggest_growth (floats eb) sector
          = Ok (EBITDA (suggested_growth body),
                CAGR_pct (EBITDA (analysis body)),
                Recent_pct (EBITDA (analysis body))) /\
        suggest_growth (floats pt) sector
          = Ok (PAT (suggested_growth body),
                CAGR_pct (PAT (analysis body)),
                Recent_pct (PAT (analysis body)))
  end.
Proof.
  intros Hrt. unfold GrowthService.growth_api.
  destruct (GrowthService.fetch_financials ticker) as [[[rv eb] pt] | e];
    [| reflexivity].
  cbn [and_then]. fold (floats rv). fold (floats eb). fold (floats pt).
  destruct (suggest_growth_after_clean (floats rv) sector _ Hrt (clean_floats rv))
    as (g1 & c1 & r1 & H1).
  destruct (suggest_growth_after_clean (floats eb) sector _ Hrt (clean_floats eb))
    as (g2 & c2 & r2 & H2).
  destruct (suggest_growth_after_clean (floats pt) sector _ Hrt (clean_floats pt))
    as (g3 & c3 & r3 & H3).
  rewrite H1, H2, H3. cbn [lift and_then].
  eexists. split; [reflexivity |]. cbn. repeat split; reflexivity.
Qed.
End ServiceProperties.

(** ** Instances of the further properties *)

Lemma suggest_growth_ignores_filtered_witness :
  Forall numeric
    [PFloat 100; PFloat (-5); PFloat nan; PInt 110; PInt 0; PFloat 121;
     PFloat 133.1; PFloat 146.41] /\
  @suggest_growth sample_runtime
    (filter passes
       [PFloat 100; PFloat (-5); PFloat nan; PInt 110; PInt 0; PFloat 121;
        PFloat 133.1; PFloat 146.41]) (lit "FMCG")
  = @suggest_growth sample_runtime
      [PFloat 100; PFloat (-5); PFloat nan; PInt 110; PInt 0; PFloat 121;
       PFloat 133.1; PFloat 146.41] (lit "FMCG").
Proof.
  assert (Hnum : Forall numeric
    [PFloat 100; PFloat (-5); PFloat nan; PInt 110; PInt 0; PFloat 121;
     PFloat 133.1; PFloat 146.41])
    by (repeat constructor).
  split; [exact Hnum |].
  exact (@suggest_growth_ignores_filtered sample_runtime _ (lit "FMCG") Hnum).
Defined.

Lemma suggest_growth_fails_as_cleaning_witness :
  root_defined sample_runtime /\
  match clean_failure [PFloat 100; PInt 0; PInt (- 2 ^ 1024); PNone; PInt (2 ^ 1024)] with
  | Some e =>
      @suggest_growth sample_runtime
        [PFloat 100; PInt 0; PInt (- 2 ^ 1024); PNone; PInt (2 ^ 1024)] (lit "IT")
      = Raise e
  | None =>
      exists g c r,
        @suggest_growth sample_runtime
          [PFloat 100; PInt 0; PInt (- 2 ^ 1024); PNone; PInt (2 ^ 1024)] (lit "IT")
        = Ok (g, c, r)
  end.
Proof.
  split; [exact sample_root_defined |].
  exact (@suggest_growth_fails_as_cleaning sample_runtime
           [PFloat 100; PInt 0; PInt (- 2 ^ 1024); PNone; PInt (2 ^ 1024)] (lit "IT")
           sample_root_defined).
Defined.

Lemma suggest_growth_reads_ends_witness :
  clean (floats [100; 5; 7; 121; 133.1; 146.41]%float)
    = Ok (100 :: [5; 7] ++ [121; 133.1; 146.41])%float /\
  clean (floats [100; 500; 700; 121; 133.1; 146.41]%float)
    = Ok (100 :: [500; 700] ++ [121; 133.1; 146.41])%float /\
  length [5; 7]%float = length [500; 700]%float /\
  @suggest_growth sample_runtime (floats [100; 5; 7; 121; 133.1; 146.41]%float) (lit "IT")
  = @suggest_growth sample_runtime (floats [100; 500; 700; 121; 133.1; 146.41]%float)
      (lit "IT").
Proof.
  split; [reflexivity |]. split; [reflexivity |]. split; [reflexivity |].
  exact (@suggest_growth_reads_ends sample_runtime
           (floats [100; 5; 7; 121; 133.1; 146.41]%float)
           (floats [100; 500; 700; 121; 133.1; 146.41]%float) (lit "IT")
           100%float 121%float 133.1%float 146.41%float
           [5; 7]%float [500; 700]%float eq_refl eq_refl eq_refl).
Defined.

Lemma suggest_growth_answers_bound_witness :
  clean (floats [1; 2; 3; infinity]%float) = Ok [1; 2; 3; 0]%float /\
  (4 <= length [1; 2; 3; 0]%float)%nat /\
  @calculate_cagr sample_runtime (PFloat (hd 0%float [1; 2; 3; 0]%float))
    (PFloat (last [1; 2; 3; 0]%float 0%float))
    (Z.of_nat (length [1; 2; 3; 0]%float) - 1) = Ok 0%float /\
  @limits_for sample_runtime (lit "banking") = Ok {| lim_min := 7; lim_max := 14 |} /\
  float_compare_int (0.6 * 0 + 0.4 * recent_trend_over 2 [1; 2; 3; 0])%float 7 = Some Lt /\
  exists c r,
    @suggest_growth sample_runtime (floats [1; 2; 3; infinity]%float) (lit "banking")
    = Ok (PInt 7, c, r).
Proof.
  assert (Hlen : (4 <= length [1; 2; 3; 0]%float)%nat) by (simpl; lia).
  split; [reflexivity |]. split; [exact Hlen |]. split; [reflexivity |].
  split; [reflexivity |]. split; [reflexivity |].
  exact (proj1 (@suggest_growth_answers_bound sample_runtime
                  (floats [1; 2; 3; infinity]%float) (lit "banking")
                  [1; 2; 3; 0]%float 0%float {| lim_min := 7; lim_max := 14 |}
                  eq_refl Hlen eq_refl eq_refl) eq_refl).
Defined.

Lemma suggest_growth_short_on_sanitized_witness :
  sanitize_all [PNone; PFloat nan; PFloat infinity; PFloat 3; PInt 4; PFloat 5; PFloat (-1)]
    = Ok [0; 0; 0; 3; 4; 5; -1]%float /\
  (valid_count [PNone; PFloat nan; PFloat infinity; PFloat 3; PInt 4; PFloat 5; PFloat (-1)]
   < 4)%nat /\
  @suggest_growth sample_runtime (floats [0; 0; 0; 3; 4; 5; -1]%float) (lit "ENERGY")
  = Ok (PFloat 0, PFloat 0, PFloat 0).
Proof.
  assert (Hcount :
    (valid_count [PNone; PFloat nan; PFloat infinity; PFloat 3; PInt 4; PFloat 5; PFloat (-1)]
     < 4)%nat) by (vm_compute; lia).
  split; [reflexivity |]. split; [exact Hcount |].
  exact (@suggest_growth_short_on_sanitized sample_runtime
           [PNone; PFloat nan; PFloat infinity; PFloat 3; PInt 4; PFloat 5; PFloat (-1)]
           [0; 0; 0; 3; 4; 5; -1]%float (lit "ENERGY") eq_refl Hcount).
Defined.

Lemma fm_suggest_growth_needs_three_witness :
  (length (floats [100; 110]%float) < 3)%nat /\
  exists e,
    @FinancialModel.suggest_growth sample_runtime (floats [100; 110]%float) (lit "IT")
    = Raise e.
Proof.
  assert (Hlen : (length (floats [100; 110]%float) < 3)%nat) by (simpl; lia).
  split; [exact Hlen |].
  exact (@fm_suggest_growth_needs_three sample_runtime _ (lit "IT") Hlen).
Defined.

Lemma fm_suggest_growth_zero_divisor_witness :
  root_defined sample_runtime /\
  ((0 =? 0)%float = true \/ (110 =? 0)%float = true) /\
  @FinancialModel.suggest_growth sample_runtime
    (floats ([100; 105] ++ [0; 110; 121])%float) (lit "IT")
  = Raise ZeroDivisionError.
Proof.
  assert (Hzero : (0 =? 0)%float = true \/ (110 =? 0)%float = true)
    by (left; reflexivity).
  split; [exact sample_root_defined |]. split; [exact Hzero |].
  exact (@fm_suggest_growth_zero_divisor sample_runtime [100; 105]%float
           0%float 110%float 121%float (lit "IT") sample_root_defined Hzero).
Defined.

Lemma engines_agree_on_clean_series_witness :
  Forall (fun x => (0 <? x)%float = true /\ is_finite x = true)
         [100; 150; 220; 330; 500]%float /\
  (4 <= length [100; 150; 220; 330; 500]%float)%nat /\
  @suggest_growth sample_runtime (floats [100; 150; 220; 330; 500]%float) (lit "IT")
    = Ok (PInt 15, PFloat 49.53, PFloat 50.76) /\
  exists lim cagr g' c' r',
    let recent := recent_trend_over 2 [100; 150; 220; 330; 500]%float in
    let blend := clamped (0.6 * cagr + 0.4 * recent)%float lim in
    @limits_for sample_runtime (lit "IT") = Ok lim /\
    py_round blend 2 = Ok (PInt 15) /\
    py_round (PFloat cagr) 2 = Ok (PFloat 49.53) /\
    py_round (PFloat recent) 2 = Ok (PFloat 50.76) /\
    py_round blend 1 = Ok g' /\
    py_round (PFloat cagr) 1 = Ok c' /\
    py_round (PFloat recent) 1 = Ok r' /\
    @FinancialModel.suggest_growth sample_runtime
      (floats [100; 150; 220; 330; 500]%float) (lit "IT") = Ok (g', c', r').
Proof.
  assert (Hpos : Forall (fun x => (0 <? x)%float = true /\ is_finite x = true)
                        [100; 150; 220; 330; 500]%float)
    by (repeat constructor).
  assert (Hlen : (4 <= length [100; 150; 220; 330; 500]%float)%nat) by (simpl; lia).
  split; [exact Hpos |]. split; [exact Hlen |]. split; [reflexivity |].
  exact (@engines_agree_on_clean_series sample_runtime
           [100; 150; 220; 330; 500]%float (lit "IT")
           (PInt 15) (PFloat 49.53) (PFloat 50.76) Hpos Hlen eq_refl).
Defined.

Lemma growth_engine_needs_three_witness :
  (length (floats [100; 110; 121; 133.1]%float) < 3 \/
   length (floats [20; 22]%float) < 3 \/
   length (floats [10; 11; 12; 13]%float) < 3)%nat /\
  exists e,
    @FinancialModelService.growth_engine sample_runtime (lit "ACME") (lit "IT")
      (floats [100; 110; 121; 133.1]%float) (floats [20; 22]%float)
      (floats [10; 11; 12; 13]%float) = Raise e.
Proof.
  assert (H : (length (floats [100; 110; 121; 133.1]%float) < 3 \/
               length (floats [20; 22]%float) < 3 \/
               length (floats [10; 11; 12; 13]%float) < 3)%nat)
    by (right; left; simpl; lia).
  split; [exact H |].
  exact (@growth_engine_needs_three sample_runtime (lit "ACME") (lit "IT") _ _ _ H).
Defined.

Lemma sample_frame_cells (label : str) (row : list pyval) :
  lookup sample_frame label = Some row -> exists l, row = floats l.
Proof.
  unfold sample_frame. rewrite !lookup_cons. cbn [lookup].
  repeat (destruct (str_eqb _ label);
          [intros H; apply (f_equal (fun o => match o with
                                             | Some r => r
                                             | None => []
                                             end)) in H;
           cbv beta iota in H; rewrite <- H; eexists; reflexivity |]).
  intros H. discriminate H.
Qed.

Lemma fetch_financials_on_floats_witness :
  @financials (constant_provider (Some sample_frame)) (lit "ACME")
    = Done (Some sample_frame) /\
  frame_empty sample_frame = false /\
  lookup sample_frame (lit "Total Revenue")
    = Some (floats [146.41; 133.1; 121; nan; 110; 100]%float) /\
  lookup sample_frame (lit "Net Income")
    = Some (floats [14; 13; infinity; 12; 11; 10]%float) /\
  (forall label row, lookup sample_frame label = Some row -> exists l, row = floats l) /\
  exists e,
    match lookup sample_frame (lit "Ebitda"), lookup sample_frame (lit "EBIT"),
          lookup sample_frame (lit "Operating Income") with
    | Some row, _, _ | None, Some row, _ | None, None, Some row => row = floats e
    | None, None, None =>
        e = map (fun x => (x * 0.15)%float) [146.41; 133.1; 121; nan; 110; 100]%float
    end /\
    @GrowthService.fetch_financials (constant_provider (Some sample_frame)) (lit "ACME") =
      Done (map (fun f => sanitized (PFloat f))
                (rev [146.41; 133.1; 121; nan; 110; 100]%float),
            map (fun f => sanitized (PFloat f)) (rev e),
            map (fun f => sanitized (PFloat f))
                (rev [14; 13; infinity; 12; 11; 10]%float)).
Proof.
  split; [reflexivity |]. split; [reflexivity |]. split; [reflexivity |].
  split; [reflexivity |]. split; [exact sample_frame_cells |].
  exact (@fetch_financials_on_floats (constant_provider (Some sample_frame))
           (lit "ACME") sample_frame
           [146.41; 133.1; 121; nan; 110; 100]%float
           [14; 13; infinity; 12; 11; 10]%float
           eq_refl eq_refl eq_refl eq_refl sample_frame_cells).
Defined.

Lemma fetch_financials_hands_over_finite_witness :
  @GrowthService.fetch_financials (constant_provider (Some sample_frame)) (lit "ACME")
    = Done ([100; 110; 0; 121; 133.1; 146.41]%float,
            [-1; 20; 22; 25; 27; 30]%float,
            [10; 11; 12; 0; 13; 14]%float) /\
  Forall (fun f => is_finite f = true)
         ([100; 110; 0; 121; 133.1; 146.41] ++ [-1; 20; 22; 25; 27; 30]
          ++ [10; 11; 12; 0; 13; 14])%float /\
  exists fin rrow prow,
    @financials (constant_provider (Some sample_frame)) (lit "ACME") = Done (Some fin) /\
    lookup fin (lit "Total Revenue") = Some rrow /\
    lookup fin (lit "Net Income") = Some prow /\
    length [100; 110; 0; 121; 133.1; 146.41]%float = length rrow /\
    length [10; 11; 12; 0; 13; 14]%float = length prow.
Proof.
  split; [reflexivity |].
  exact (@fetch_financials_hands_over_finite (constant_provider (Some sample_frame))
           (lit "ACME") [100; 110; 0; 121; 133.1; 146.41]%float
           [-1; 20; 22; 25; 27; 30]%float [10; 11; 12; 0; 13; 14]%float eq_refl).
Defined.

Lemma growth_api_handler_returns_after_retrieval_witness :
  root_defined sample_runtime /\
  match @GrowthService.fetch_financials (constant_provider (Some sample_frame))
          (lit "ACME") with
  | Failed e =>
      @GrowthService.growth_api sample_runtime (constant_provider (Some sample_frame))
        (lit "ACME") (lit "it") = Http400 e
  | Done (rv, eb, pt) =>
      exists body,
        @GrowthService.growth_api sample_runtime (constant_provider (Some sample_frame))
          (lit "ACME") (lit "it") = Returned body /\
        company body = lit "ACME" /\ sector_tag body = lit "it" /\
        @suggest_growth sample_runtime (floats rv) (lit "it")
          = Ok (Revenue (suggested_growth body),
                CAGR_pct (Revenue (analysis body)),
                Recent_pct (Revenue (analysis body))) /\
        @suggest_growth sample_runtime (floats eb) (lit "it")
          = Ok (EBITDA (suggested_growth body),
                CAGR_pct (EBITDA (analysis body)),
                Recent_pct (EBITDA (analysis body))) /\
        @suggest_growth sample_runtime (floats pt) (lit "it")
          = Ok (PAT (suggested_growth body),
                CAGR_pct (PAT (analysis body)),
                Recent_pct (PAT (analysis body)))
  end.
Proof.
  split; [exact sample_root_defined |].
  exact (@growth_api_handler_returns_after_retrieval sample_runtime
           (constant_provider (Some sample_frame)) (lit "ACME") (lit "it")
           sample_root_defined).
Defined.

(** The dict the handler returns on the sample table. *)
Lemma growth_api_on_sample_frame :
  @GrowthService.growth_api sample_runtime (constant_provider (Some sample_frame))
    (lit "ACME") (lit "it")
  = Returned
      {| company := lit "ACME";
         sector_tag := lit "it";
         suggested_growth :=
           {| Revenue := PFloat 10; EBITDA := PFloat 10.22; PAT := PFloat 8.47 |};
         analysis :=
           {| Revenue := {| CAGR_pct := PFloat 10; Recent_pct := PFloat 10 |};
              EBITDA := {| CAGR_pct := PFloat 10.67; Recent_pct := PFloat 9.56 |};
              PAT := {| CAGR_pct := PFloat 8.78; Recent_pct := PFloat 8.01 |} |};
         confidence := "MEDIUM";
         note := "Auto-calculated from cleaned historical financials" |}.
Proof. reflexivity. Qed.

(** A finite table can lead to figures that are not finite: on the
    revenue [1e-300, 1, 1, 1, 1e308], oldest first, the quotient of the
    ends overflows, so the CAGR and the recent trend of the revenue and
    of the EBITDA derived from it are [inf]; the handler returns them in
    its dict, next to suggestions clamped to the ceiling of the sector. *)
Lemma growth_api_returns_infinite_figures :
  @GrowthService.growth_api sample_runtime
    (constant_provider
       (Some [ (lit "Total Revenue", floats [1e308; 1; 1; 1; 1e-300]%float);
               (lit "Net Income", floats [14; 13; 12; 11; 10]%float) ]))
    (lit "ACME") (lit "it")
  = Returned
      {| company := lit "ACME";
         sector_tag := lit "it";
         suggested_growth :=
           {| Revenue := PInt 15; EBITDA := PInt 15; PAT := PFloat 8.47 |};
         analysis :=
           {| Revenue := {| CAGR_pct := PFloat infinity; Recent_pct := PFloat infinity |};
              EBITDA := {| CAGR_pct := PFloat infinity; Recent_pct := PFloat infinity |};
              PAT := {| CAGR_pct := PFloat 8.78; Recent_pct := PFloat 8.01 |} |};
         confidence := "MEDIUM";
         note := "Auto-calculated from cleaned historical financials" |}.
Proof. reflexivity. Qed.

Lemma int_truediv_one_nonzero (n : Z) :
  n <> 0 -> int_truediv 1 n = Ok (reciprocal n).
Proof.
  intros Hn. unfold int_truediv.
  destruct (Z.eqb_spec n 0) as [E | _]; [contradiction |].
  pose proof dbl_overflow_large as L.
  assert (0 < 2 ^ 53) by (apply Z.pow_pos_nonneg; lia).
  destruct (Z.leb_spec (dbl_overflow * Z.abs n) (Z.abs 1)) as [C | _]; [| reflexivity].
  exfalso. change (Z.abs 1) with 1 in C.
  assert (1 <= Z.abs n) by lia.
  revert C L H H0. generalize (Z.abs n) dbl_overflow (2 ^ 53). intros; nia.
Qed.

(** X17. [calculate_cagr] of financial_model_api on two floats: once the
    start or the end is [<= 0] it answers the int [0], whatever the
    periods and without dividing; past that guard it raises
    [ZeroDivisionError] for zero periods and otherwise returns the
    fraction [(end / start) ** (1 / years) - 1], negative periods
    included. *)
Theorem fm_calculate_cagr_by_cases {rt : PyRuntime} (s e : float) (years : Z) :
  FinancialModel.calculate_cagr (PFloat s) (PFloat e) years =
    if (s <=? 0)%float || (e <=? 0)%float then Ok (PInt 0)
    else if years =? 0 then Raise ZeroDivisionError
    else p <- float_pow (e / s)%float (reciprocal years) ;; Ok (PFloat (p - 1)%float).
Proof.
  destruct (s <=? 0)%float eqn:Es;
    [apply fm_calculate_cagr_guard; now left |].
  destruct (e <=? 0)%float eqn:Ee;
    [apply fm_calculate_cagr_guard; now right |].
  rewrite (fm_calculate_cagr_fraction s e years Es Ee). cbn [orb].
  destruct (Z.eqb_spec years 0) as [-> | Hy]; [reflexivity |].
  now rewrite (int_truediv_one_nonzero years Hy).
Qed.
